(** * IDP platform: configuration manager and workflow job client

    A shallow embedding of

    - [platform/backend-services/configuration-manager/main.py]
      (class [ConfigurationManager] and the [PUT] route), and
    - [windmill/langchain-tools/idp-platform-tools.py]
      (class [WindmillClient]),

    together with the properties the specification states about them.

    Python values travel through the service as loosely typed JSON
    ([Dict[str, Any]]), so the embedding keeps them loosely typed: a
    [value] is what [json.loads] can produce, a [dict] keeps insertion
    order, and every operation that Python can refuse ([x.get] on
    something that is not a mapping, [d[k]] on a missing key, ...) returns
    in the exception monad [result]. *)

From Stdlib Require Import ZArith String List Bool Lia Floats.
From stdpp Require Import gmap strings pretty.
Import ListNotations.

Set Warnings "-register-all".

#[local] Open Scope string_scope.
#[local] Open Scope list_scope.
#[local] Open Scope Z_scope.

(** ** Python values *)

Inductive value : Type :=
| VNone
| VBool (b : bool)
| VInt (n : Z)
| VFloat (x : float)
| VStr (s : string)
| VList (xs : list value)
| VDict (kvs : list (string * value)).

(** A [dict] lists its items in insertion order; a Python dict never holds
    a key twice, which is [dict_wf]. *)
Definition dict : Type := list (string * value).

Definition keys (d : dict) : list string := map fst d.

Definition dict_wf (d : dict) : Prop := List.NoDup (keys d).

(** [bool(v)]: the truth value Python gives [v] in [if v] and [not v]. *)
Definition truthy (v : value) : bool :=
  match v with
  | VNone => false
  | VBool b => b
  | VInt n => negb (n =? 0)
  | VFloat x => negb (PrimFloat.eqb x 0%float)
  | VStr s => negb (String.eqb s "")
  | VList xs => match xs with [] => false | _ :: _ => true end
  | VDict kvs => match kvs with [] => false | _ :: _ => true end
  end.

(** [type(v).__name__], as it appears in Python's error messages. *)
Definition type_name (v : value) : string :=
  match v with
  | VNone => "NoneType"
  | VBool _ => "bool"
  | VInt _ => "int"
  | VFloat _ => "float"
  | VStr _ => "str"
  | VList _ => "list"
  | VDict _ => "dict"
  end.

(** [isinstance(v, int)]: [bool] is a subclass of [int] in Python. *)
Definition isinstance_int (v : value) : bool :=
  match v with
  | VInt _ | VBool _ => true
  | _ => false
  end.

(** The integer an [int] instance stands for ([True] is [1], [False] is [0]). *)
Definition int_value (v : value) : option Z :=
  match v with
  | VInt n => Some n
  | VBool b => Some (Z.b2z b)
  | _ => None
  end.

(** ** Exceptions *)

Inductive exn : Type :=
| AttributeError (ty attr : string)
| KeyError (key : string)
| TypeError (msg : string)
| ApiException (status : option Z) (reason : string)
| HTTPException (status_code : Z) (detail : string)
| RequestException (msg : string)
| RuntimeError (msg : string).

(** [str(e)], used where the code formats an exception into a message. *)
Definition exn_str (e : exn) : string :=
  match e with
  | AttributeError ty attr =>
      "'" +:+ ty +:+ "' object has no attribute '" +:+ attr +:+ "'"
  | KeyError key => "'" +:+ key +:+ "'"
  | TypeError msg => msg
  | ApiException _ reason => reason
  | HTTPException _ detail => detail
  | RequestException msg => msg
  | RuntimeError msg => msg
  end.

Definition result (A : Type) : Type := (exn + A)%type.

Definition ret {A : Type} (a : A) : result A := inr a.
Definition raise {A : Type} (e : exn) : result A := inl e.

Definition bind {A B : Type} (m : result A) (k : A -> result B) : result B :=
  match m with
  | inl e => inl e
  | inr a => k a
  end.

Notation "'let*' x ':=' m 'in' k" := (bind m (fun x => k))
  (at level 10, x pattern, m at level 100, k at level 200).

(** ** Dictionary operations *)

Fixpoint dict_lookup (d : dict) (k : string) : option value :=
  match d with
  | [] => None
  | (k', v) :: d' => if String.eqb k' k then Some v else dict_lookup d' k
  end.

(** [d.get(k, default)] *)
Definition get (d : dict) (k : string) (default : value) : value :=
  match dict_lookup d k with
  | Some v => v
  | None => default
  end.

(** [d[k]] *)
Definition getitem (d : dict) (k : string) : result value :=
  match dict_lookup d k with
  | Some v => ret v
  | None => raise (KeyError k)
  end.

(** [d[k] = v]: an existing key keeps its place, a new one goes last. *)
Fixpoint setitem (d : dict) (k : string) (v : value) : dict :=
  match d with
  | [] => [(k, v)]
  | (k', v') :: d' =>
      if String.eqb k' k then (k', v) :: d' else (k', v') :: setitem d' k v
  end.

(** [d.setdefault(k, default)], as the dictionary it leaves behind. *)
Definition setdefault (d : dict) (k : string) (default : value) : dict :=
  match dict_lookup d k with
  | Some _ => d
  | None => d ++ [(k, default)]
  end.

(** The same operations on a value that may or may not be a mapping. *)

(** [v.get(k, default)] *)
Definition py_get (v : value) (k : string) (default : value) : result value :=
  match v with
  | VDict d => ret (get d k default)
  | _ => raise (AttributeError (type_name v) "get")
  end.

(** [v.items()] *)
Definition py_items (v : value) : result (list (string * value)) :=
  match v with
  | VDict d => ret d
  | _ => raise (AttributeError (type_name v) "items")
  end.

(** [v[k]] for a string [k] *)
Definition py_getitem (v : value) (k : string) : result value :=
  match v with
  | VDict d => getitem d k
  | VStr _ => raise (TypeError "string indices must be integers")
  | VList _ => raise (TypeError "list indices must be integers or slices, not str")
  | _ => raise (TypeError ("'" +:+ type_name v +:+ "' object is not subscriptable"))
  end.

(** [v[k] = x] for a string [k] *)
Definition py_setitem (v : value) (k : string) (x : value) : result value :=
  match v with
  | VDict d => ret (VDict (setitem d k x))
  | VList _ => raise (TypeError "list indices must be integers or slices, not str")
  | _ => raise (TypeError ("'" +:+ type_name v
                           +:+ "' object does not support item assignment"))
  end.

(** ** The service's data *)

Record ApplicationConfiguration : Type := {
  apiVersion : string;
  kind : string;
  metadata : dict;
  spec : dict
}.

Record ConfigurationTemplate : Type := {
  name : string;
  description : string;
  type : string;
  configuration : dict
}.

Record ValidationResult : Type := {
  valid : bool;
  errors : list string;
  warnings : list string
}.

(** ** [ConfigurationManager.validate_configuration] *)

Definition replica_error (env_name : string) : string :=
  "Invalid replica count for environment " +:+ env_name.

Definition resource_warning (env_name : string) : string :=
  "Resource requests/limits not fully specified for environment " +:+ env_name.

(** [v <= 0]; the code reaches it only when [v] is an [int] instance. *)
Definition le_zero (v : value) : bool :=
  match int_value v with
  | Some n => n <=? 0
  | None => false
  end.

(** One turn of the loop over [environments.items()]. *)
Definition validate_environment (env_name : string) (env_config : value)
    (acc : list string * list string) : result (list string * list string) :=
  let '(errors, warnings) := acc in
  let* replicas := py_get env_config "replicas" VNone in
  let* replicas0 := py_get env_config "replicas" (VInt 0) in
  let errors :=
    if negb (isinstance_int replicas) || le_zero replicas0
    then errors ++ [replica_error env_name]
    else errors in
  let* resources := py_get env_config "resources" (VDict []) in
  let* requests := py_get resources "requests" VNone in
  let* limits := py_get resources "limits" VNone in
  let warnings :=
    if negb (truthy requests) || negb (truthy limits)
    then warnings ++ [resource_warning env_name]
    else warnings in
  ret (errors, warnings).

Fixpoint validate_environments (items : list (string * value))
    (acc : list string * list string) : result (list string * list string) :=
  match items with
  | [] => ret acc
  | (env_name, env_config) :: rest =>
      let* acc' := validate_environment env_name env_config acc in
      validate_environments rest acc'
  end.

Definition validate_configuration (config : ApplicationConfiguration)
  : result ValidationResult :=
  let errors := [] in
  let warnings := [] in
  let errors :=
    if negb (truthy (get (metadata config) "name" VNone))
    then errors ++ ["Configuration name is required"] else errors in
  let errors :=
    if negb (truthy (get (metadata config) "namespace" VNone))
    then errors ++ ["Namespace is required"] else errors in
  let errors :=
    if negb (truthy (get (spec config) "application" VNone))
    then errors ++ ["Application name is required"] else errors in
  let environments := get (spec config) "environments" (VDict []) in
  let warnings :=
    if negb (truthy environments)
    then warnings ++ ["No environments configured"] else warnings in
  let* items := py_items environments in
  let* checked := validate_environments items (errors, warnings) in
  let '(errors, warnings) := checked in
  ret {| valid := (length errors =? 0)%nat;
         errors := errors;
         warnings := warnings |}.

(** ** [ConfigurationManager._generate_manifests] and [preview_configuration] *)

Definition newline : string := String (Ascii.ascii_of_nat 10) "".

(** The document separator of [preview_configuration]. *)
Definition yaml_separator : string := newline +:+ "---" +:+ newline.

Section Preview.

(** Python's [repr] of floats and containers, and [yaml.dump]: library
    code the service calls and this development leaves open. *)
Variable py_repr : value -> string.
Variable yaml_dump : value -> string.

(** [str(v)], the conversion an f-string applies to [{v}]. *)
Definition py_str (v : value) : string :=
  match v with
  | VStr s => s
  | VNone => "None"
  | VBool true => "True"
  | VBool false => "False"
  | VInt n => pretty n
  | VFloat _ | VList _ | VDict _ => py_repr v
  end.

Definition api_version : value := VStr "platform.idp/v1alpha1".

Definition web_app_manifest (config : ApplicationConfiguration) : result value :=
  let* application := getitem (spec config) "application" in
  let* namespace := getitem (metadata config) "namespace" in
  ret (VDict
    [("apiVersion", api_version);
     ("kind", VStr "WebApplication");
     ("metadata", VDict [("name", application); ("namespace", namespace)]);
     ("spec", VDict
        [("environments", get (spec config) "environments" (VDict []))])]).

Definition db_manifest (config : ApplicationConfiguration) (env_name : string)
    (db_config : value) : result value :=
  let* application := getitem (spec config) "application" in
  let* namespace := getitem (metadata config) "namespace" in
  let* db_type := py_getitem db_config "type" in
  let* db_size := py_getitem db_config "size" in
  ret (VDict
    [("apiVersion", api_version);
     ("kind", VStr "DatabaseInstance");
     ("metadata", VDict
        [("name", VStr (py_str application +:+ "-" +:+ env_name +:+ "-db"));
         ("namespace", namespace)]);
     ("spec", VDict
        [("type", db_type); ("size", db_size); ("environment", VStr env_name)])]).

Definition cache_manifest (config : ApplicationConfiguration) (env_name : string)
    (cache_config : value) : result value :=
  let* application := getitem (spec config) "application" in
  let* namespace := getitem (metadata config) "namespace" in
  let* cache_type := py_getitem cache_config "type" in
  let* cache_size := py_getitem cache_config "size" in
  let* nodes := py_get cache_config "nodes" (VInt 1) in
  ret (VDict
    [("apiVersion", api_version);
     ("kind", VStr "CacheInstance");
     ("metadata", VDict
        [("name", VStr (py_str application +:+ "-" +:+ env_name +:+ "-cache"));
         ("namespace", namespace)]);
     ("spec", VDict
        [("type", cache_type); ("size", cache_size); ("nodes", nodes);
         ("environment", VStr env_name)])]).

(** One turn of the loop over the environments: what it appends. *)
Definition environment_manifests (config : ApplicationConfiguration)
    (env_name : string) (env_config : value) : result (list value) :=
  let* database := py_get env_config "database" VNone in
  let* dbs :=
    if truthy database then
      let* db_config := py_getitem env_config "database" in
      let* m := db_manifest config env_name db_config in
      ret [m]
    else ret [] in
  let* cache := py_get env_config "cache" VNone in
  let* caches :=
    if truthy cache then
      let* cache_config := py_getitem env_config "cache" in
      let* m := cache_manifest config env_name cache_config in
      ret [m]
    else ret [] in
  ret (dbs ++ caches).

Fixpoint generate_environments (config : ApplicationConfiguration)
    (items : list (string * value)) (manifests : list value)
  : result (list value) :=
  match items with
  | [] => ret manifests
  | (env_name, env_config) :: rest =>
      let* more := environment_manifests config env_name env_config in
      generate_environments config rest (manifests ++ more)
  end.

Definition _generate_manifests (config : ApplicationConfiguration)
  : result (list value) :=
  let manifests := [] in
  let* web_app := web_app_manifest config in
  let manifests := manifests ++ [web_app] in
  let* items := py_items (get (spec config) "environments" (VDict [])) in
  generate_environments config items manifests.

(** [except Exception] turns every failure into a 500. *)
Definition preview_configuration (config : ApplicationConfiguration)
  : result string :=
  match _generate_manifests config with
  | inr manifests => ret (String.concat yaml_separator (map yaml_dump manifests))
  | inl e =>
      raise (HTTPException 500 ("Failed to generate preview: " +:+ exn_str e))
  end.

End Preview.

(** ** [get_templates] and [apply_template] *)

Definition resources_of (req_cpu req_mem lim_cpu lim_mem : string) : value :=
  VDict [("requests", VDict [("cpu", VStr req_cpu); ("memory", VStr req_mem)]);
         ("limits", VDict [("cpu", VStr lim_cpu); ("memory", VStr lim_mem)])].

Definition web_application_template : ConfigurationTemplate :=
  {| name := "web-application";
     description := "Standard web application with load balancer";
     type := "web-app";
     configuration :=
       [("spec", VDict
          [("environments", VDict
             [("development", VDict
                 [("replicas", VInt 1);
                  ("resources", resources_of "100m" "128Mi" "500m" "512Mi")]);
              ("production", VDict
                 [("replicas", VInt 3);
                  ("resources", resources_of "500m" "512Mi" "1000m" "1Gi")])])])]
  |}.

Definition api_service_template : ConfigurationTemplate :=
  {| name := "api-service";
     description := "REST API service with database";
     type := "api-service";
     configuration :=
       [("spec", VDict
          [("environments", VDict
             [("development", VDict
                 [("replicas", VInt 1);
                  ("resources", resources_of "200m" "256Mi" "500m" "512Mi");
                  ("database", VDict
                     [("type", VStr "postgresql"); ("size", VStr "small")])]);
              ("production", VDict
                 [("replicas", VInt 3);
                  ("resources", resources_of "500m" "512Mi" "1000m" "1Gi");
                  ("database", VDict
                     [("type", VStr "postgresql"); ("size", VStr "large")])])])])]
  |}.

Definition builtin_templates : list ConfigurationTemplate :=
  [web_application_template; api_service_template].

(** The template directory, as [get_templates] sees it: one entry per
    [*.yaml] file, [None] for a file that fails to load (it is skipped). *)
Definition template_files : Type := list (option ConfigurationTemplate).

Definition get_templates (files : template_files) : list ConfigurationTemplate :=
  builtin_templates ++ omap id files.

(** [{**d, **other}]: the items of [other] written into [d] in order. *)
Definition dict_update (d other : dict) : dict :=
  fold_left (fun acc kv => setitem acc (fst kv) (snd kv)) other d.

(** [**v] in a dict display needs a mapping. *)
Definition py_mapping (v : value) : result dict :=
  match v with
  | VDict d => ret d
  | _ => raise (TypeError ("'" +:+ type_name v +:+ "' object is not a mapping"))
  end.

Definition apply_template (files : template_files)
    (template_name app_name namespace : string)
  : result ApplicationConfiguration :=
  let templates := get_templates files in
  match find (fun t => String.eqb (name t) template_name) templates with
  | None =>
      raise (HTTPException 404 ("Template " +:+ template_name +:+ " not found"))
  | Some template =>
      let* template_spec :=
        py_mapping (get (configuration template) "spec" (VDict [])) in
      ret {| apiVersion := "platform.idp/v1alpha1";
             kind := "ApplicationConfiguration";
             metadata :=
               [("name", VStr (app_name +:+ "-config"));
                ("namespace", VStr namespace);
                ("labels", VDict [("app", VStr app_name);
                                  ("template", VStr template_name)])];
             spec :=
               dict_update [("application", VStr app_name)] template_spec |}
  end.

(** ** The store operations

    The manager talks to the cluster through [custom_objects_api] and reads
    the clock through [datetime.utcnow()].  Both are collaborators outside
    the repository: the API is an interface [CustomObjectsApi] over some
    cluster state, the clock an oracle giving the text of each successive
    reading.  Logging changes nothing the operations return or send and is
    left out; with it [_sync_to_git] and [_remove_from_git] do nothing. *)

(** A request sent to the custom-resource API ([body] is [config.dict()]). *)
Inductive api_call : Type :=
| CreateCall (namespace : value) (body : ApplicationConfiguration)
| PatchCall (namespace name : value) (body : ApplicationConfiguration)
| DeleteCall (namespace name : string).

Record CustomObjectsApi (S : Type) : Type := {
  create_namespaced_custom_object :
    value -> ApplicationConfiguration -> S -> result value * S;
  patch_namespaced_custom_object :
    value -> value -> ApplicationConfiguration -> S -> result value * S;
  delete_namespaced_custom_object :
    string -> string -> S -> result unit * S
}.

Arguments create_namespaced_custom_object {S} _ _ _ _.
Arguments patch_namespaced_custom_object {S} _ _ _ _ _.
Arguments delete_namespaced_custom_object {S} _ _ _ _.

Record World (S : Type) : Type := {
  cluster : S;
  clock_reads : nat;
  calls : list api_call
}.

Arguments cluster {S} _.
Arguments clock_reads {S} _.
Arguments calls {S} _.

(** State and exceptions: a raised exception keeps the world reached. *)
Definition M (S A : Type) : Type := World S -> result A * World S.

Definition mret {S A : Type} (a : A) : M S A := fun w => (ret a, w).

Definition mraise {S A : Type} (e : exn) : M S A := fun w => (raise e, w).

Definition mbind {S A B : Type} (m : M S A) (k : A -> M S B) : M S B :=
  fun w =>
    match m w with
    | (inl e, w') => (inl e, w')
    | (inr a, w') => k a w'
    end.

Definition lift {S A : Type} (r : result A) : M S A := fun w => (r, w).

(** [try: m except kubernetes.client.exceptions.ApiException as e: h e] *)
Definition except_ApiException {S A : Type} (m : M S A)
    (handler : option Z -> string -> M S A) : M S A :=
  fun w =>
    match m w with
    | (inl (ApiException status reason), w') => handler status reason w'
    | other => other
    end.

Notation "'do' x '<-' m ';' k" := (mbind m (fun x => k))
  (at level 10, x pattern, m at level 100, k at level 200).

Definition set_metadata (config : ApplicationConfiguration) (m : dict)
  : ApplicationConfiguration :=
  {| apiVersion := apiVersion config;
     kind := kind config;
     metadata := m;
     spec := spec config |}.

Section Manager.

Context {S : Type}.
Variable api : CustomObjectsApi S.

(** The text [datetime.utcnow().isoformat()] gives at its i-th call. *)
Variable utcnow_isoformat : nat -> string.

(** The constructor call on the API's answer: pydantic's reading of what
    the API returned. *)
Variable parse_configuration : value -> result ApplicationConfiguration.

(** [self.git_repo] *)
Variable git_repo : option string.

Definition utcnow : M S string :=
  fun w =>
    (ret (utcnow_isoformat (clock_reads w)),
     {| cluster := cluster w;
        clock_reads := Datatypes.S (clock_reads w);
        calls := calls w |}).

(** Send [call] to the API: it is recorded, then answered by [respond]. *)
Definition send {A : Type} (call : api_call) (respond : S -> result A * S)
  : M S A :=
  fun w =>
    let '(r, c) := respond (cluster w) in
    (r, {| cluster := c;
           clock_reads := clock_reads w;
           calls := calls w ++ [call] |}).

(** [config.metadata["annotations"][key] = datetime.utcnow().isoformat()]:
    the right-hand side is evaluated first. *)
Definition stamp (key : string) (config : ApplicationConfiguration)
  : M S ApplicationConfiguration :=
  do now <- utcnow;
  do annotations <- lift (getitem (metadata config) "annotations");
  do annotations' <- lift (py_setitem annotations key (VStr now));
  mret (set_metadata config
          (setitem (metadata config) "annotations" annotations')).

Definition _sync_to_git (config : ApplicationConfiguration) : M S unit :=
  match git_repo with
  | None => mret tt
  | Some _ => mret tt
  end.

Definition _remove_from_git (name namespace : string) : M S unit :=
  match git_repo with
  | None => mret tt
  | Some _ => mret tt
  end.

Definition create_configuration (config : ApplicationConfiguration)
  : M S ApplicationConfiguration :=
  except_ApiException
    (let config :=
       set_metadata config (setdefault (metadata config) "annotations" (VDict [])) in
     do config <- stamp "created" config;
     do config <- stamp "lastModified" config;
     do namespace <- lift (getitem (metadata config) "namespace");
     do stored <- send (CreateCall namespace config)
                    (create_namespaced_custom_object api namespace config);
     do _ <- _sync_to_git config;
     lift (parse_configuration stored))
    (fun status reason =>
       mraise (HTTPException 500
                 ("Failed to create configuration: " +:+ reason))).

Definition update_configuration (config : ApplicationConfiguration)
  : M S ApplicationConfiguration :=
  except_ApiException
    (let config :=
       set_metadata config (setdefault (metadata config) "annotations" (VDict [])) in
     do config <- stamp "lastModified" config;
     do namespace <- lift (getitem (metadata config) "namespace");
     do name <- lift (getitem (metadata config) "name");
     do stored <- send (PatchCall namespace name config)
                    (patch_namespaced_custom_object api namespace name config);
     do _ <- _sync_to_git config;
     lift (parse_configuration stored))
    (fun status reason =>
       mraise (HTTPException 500
                 ("Failed to update configuration: " +:+ reason))).

Definition delete_configuration (name namespace : string) : M S unit :=
  except_ApiException
    (do _ <- send (DeleteCall namespace name)
               (delete_namespaced_custom_object api namespace name);
     _remove_from_git name namespace)
    (fun status reason =>
       if negb (bool_decide (status = Some 404))
       then mraise (HTTPException 500
                      ("Failed to delete configuration: " +:+ reason))
       else mret tt).

End Manager.

(** The route handlers carry the names of the manager's methods they call. *)
Module Routes.
Section Handlers.

Context {S : Type}.
Variable api : CustomObjectsApi S.
Variable utcnow_isoformat : nat -> string.
Variable parse_configuration : value -> result ApplicationConfiguration.
Variable git_repo : option string.

(** [PUT /configurations/{namespace}/{name}] *)
Definition update_configuration (name namespace : string)
    (config : ApplicationConfiguration) : M S ApplicationConfiguration :=
  let config := set_metadata config (setitem (metadata config) "name" (VStr name)) in
  let config :=
    set_metadata config (setitem (metadata config) "namespace" (VStr namespace)) in
  update_configuration api utcnow_isoformat parse_configuration git_repo config.

(** [DELETE /configurations/{namespace}/{name}] *)
Definition delete_configuration (name namespace : string) : M S dict :=
  do _ <- delete_configuration api git_repo name namespace;
  mret [("message", VStr "Configuration deleted successfully")].

End Handlers.
End Routes.

(** A cluster to run the operations against: resources held by identity
    (namespace, name); deleting or patching an absent one is answered with
    the API's not-found fault, creating a present one with a conflict. *)
Definition mem_cluster : Type := gmap (string * string) ApplicationConfiguration.

Definition body_value (body : ApplicationConfiguration) : value :=
  VDict [("apiVersion", VStr (apiVersion body));
         ("kind", VStr (kind body));
         ("metadata", VDict (metadata body));
         ("spec", VDict (spec body))].

Definition not_found : exn := ApiException (Some 404) "(404) Reason: Not Found".

Definition conflict : exn := ApiException (Some 409) "(409) Reason: Conflict".

Definition mem_api : CustomObjectsApi mem_cluster :=
  {| create_namespaced_custom_object namespace body c :=
       match namespace, get (metadata body) "name" VNone with
       | VStr ns, VStr n =>
           match c !! (ns, n) with
           | Some _ => (raise conflict, c)
           | None => (ret (body_value body), <[(ns, n) := body]> c)
           end
       | _, _ => (raise (ApiException (Some 422) "(422) Reason: Unprocessable Entity"), c)
       end;
     patch_namespaced_custom_object namespace name body c :=
       match namespace, name with
       | VStr ns, VStr n =>
           match c !! (ns, n) with
           | Some _ => (ret (body_value body), <[(ns, n) := body]> c)
           | None => (raise not_found, c)
           end
       | _, _ => (raise not_found, c)
       end;
     delete_namespaced_custom_object namespace name c :=
       match c !! (namespace, name) with
       | Some _ => (ret tt, delete (namespace, name) c)
       | None => (raise not_found, c)
       end |}.

(** ** [WindmillClient]: submitting a job and polling for its result

    The workflow engine and the wall clock are outside the program.  A
    [Network] scripts them: what the i-th request to the status endpoint
    answers and how long it takes, and by how much the i-th [time.sleep]
    oversleeps.  Time is counted in milliseconds. *)

Inductive http_outcome : Type :=
| Response (status_code : Z) (json : result value)
| RequestFailed (msg : string).

Record Network : Type := {
  get_outcome : nat -> http_outcome;
  get_latency : nat -> Z;
  sleep_extra : nat -> Z
}.

Record NetWorld : Type := {
  now : Z;
  gets : nat;
  sleeps : nat
}.

Definition seconds (n : Z) : Z := n * 1000.

Section Windmill.

Variable net : Network.

(** [str(e)] for the [HTTPError] that [raise_for_status] raises on a code. *)
Variable http_error_text : Z -> string.

(** [self.session.get(url)] on the status endpoint *)
Definition session_get (w : NetWorld) : http_outcome * NetWorld :=
  (get_outcome net (gets w),
   {| now := now w + get_latency net (gets w);
      gets := Datatypes.S (gets w);
      sleeps := sleeps w |}).

(** [time.sleep(n)] *)
Definition time_sleep (n : Z) (w : NetWorld) : NetWorld :=
  {| now := now w + seconds n + sleep_extra net (sleeps w);
     gets := gets w;
     sleeps := Datatypes.S (sleeps w) |}.

Definition failure (error : string) : dict :=
  [("success", VBool false); ("error", VStr error)].

(** The body of [while time.time() - start_time < max_wait]; [None] when
    [fuel] turns of the loop were not enough to leave it. *)
Fixpoint wait_loop (fuel : nat) (job_id : value) (start_time max_wait : Z)
    (w : NetWorld) : option (result dict * NetWorld) :=
  match fuel with
  | O => None
  | Datatypes.S fuel' =>
      if now w - start_time <? seconds max_wait then
        let '(response, w1) := session_get w in
        match response with
        | RequestFailed msg =>
            Some (ret (failure ("Error checking job status: " +:+ msg)), w1)
        | Response status_code json =>
            if status_code =? 200 then
              match json with
              | inl (RequestException msg) =>
                  Some (ret (failure ("Error checking job status: " +:+ msg)), w1)
              | inl e => Some (raise e, w1)
              | inr job_result =>
                  Some
                    (let* result := py_get job_result "result" (VDict []) in
                     let* logs := py_get job_result "logs" (VList []) in
                     ret [("success", VBool true);
                          ("job_id", job_id);
                          ("result", result);
                          ("logs", logs)],
                     w1)
              end
            else if status_code =? 404 then
              wait_loop fuel' job_id start_time max_wait (time_sleep 5 w1)
            else
              Some (ret (failure ("Job failed with status " +:+ pretty status_code)),
                    w1)
        end
      else Some (ret (failure "Job timeout"), w)
  end.

Definition _wait_for_completion (fuel : nat) (job_id : value) (max_wait : Z)
    (w : NetWorld) : option (result dict * NetWorld) :=
  let start_time := now w in
  wait_loop fuel job_id start_time max_wait w.

(** [run_flow]: [post] is what [self.session.post] answered, taking
    [post_latency]; [raise_for_status] refuses the codes from 400 to 599. *)
Definition run_flow (fuel : nat) (post : http_outcome) (post_latency : Z)
    (w : NetWorld) : option (result dict * NetWorld) :=
  let w := {| now := now w + post_latency; gets := gets w; sleeps := sleeps w |} in
  match post with
  | RequestFailed msg => Some (ret (failure ("Request failed: " +:+ msg)), w)
  | Response status_code json =>
      if (400 <=? status_code) && (status_code <? 600) then
        Some (ret (failure ("Request failed: " +:+ http_error_text status_code)),
              w)
      else
        match json with
        | inl (RequestException msg) =>
            Some (ret (failure ("Request failed: " +:+ msg)), w)
        | inl e => Some (raise e, w)
        | inr job_data =>
            match py_get job_data "uuid" VNone with
            | inl e => Some (raise e, w)
            | inr job_id =>
                if negb (truthy job_id)
                then Some (ret (failure "No job ID returned"), w)
                else _wait_for_completion fuel job_id 300 w
            end
        end
  end.

(** The number of turns after which the loop has certainly been left. *)
Definition enough_fuel (max_wait : Z) : nat := Z.to_nat (max_wait / 5) + 2.

(** The reading of [time.time()] at the loop test of turn [i] (counted
    from the world [w0] the wait starts in), when every turn before it
    slept. *)
Fixpoint time_at (w0 : NetWorld) (i : nat) : Z :=
  match i with
  | O => now w0
  | Datatypes.S j =>
      time_at w0 j + get_latency net (gets w0 + j) + seconds 5
      + sleep_extra net (sleeps w0 + j)
  end.

(** The world at the loop test of turn [i], under the same condition. *)
Definition world_at (w0 : NetWorld) (i : nat) : NetWorld :=
  {| now := time_at w0 i;
     gets := (gets w0 + i)%nat;
     sleeps := (sleeps w0 + i)%nat |}.

End Windmill.

(** * Shapes, expected results and sample inputs *)

(** ** Validation

    [validates] is the shape [validate_configuration] needs to run to its
    end; on such a configuration its lists are [basic_errors] followed by
    the environments' [env_errors], and [env_warnings] after the warning
    for an empty environment map. *)

Definition environments_of (config : ApplicationConfiguration) : value :=
  get (spec config) "environments" (VDict []).

Definition environment_shaped (env_config : value) : bool :=
  match env_config with
  | VDict e =>
      match get e "resources" (VDict []) with
      | VDict _ => true
      | _ => false
      end
  | _ => false
  end.

Definition validates (config : ApplicationConfiguration) : bool :=
  match environments_of config with
  | VDict envs => forallb (fun kv => environment_shaped (snd kv)) envs
  | _ => false
  end.

Definition invalid_replicas (env_config : dict) : bool :=
  negb (isinstance_int (get env_config "replicas" VNone))
  || le_zero (get env_config "replicas" (VInt 0)).

Definition lacks_resources (env_config : dict) : bool :=
  match get env_config "resources" (VDict []) with
  | VDict r =>
      negb (truthy (get r "requests" VNone)) || negb (truthy (get r "limits" VNone))
  | _ => false
  end.

Definition env_errors (kv : string * value) : list string :=
  match snd kv with
  | VDict e => if invalid_replicas e then [replica_error (fst kv)] else []
  | _ => []
  end.

Definition env_warnings (kv : string * value) : list string :=
  match snd kv with
  | VDict e => if lacks_resources e then [resource_warning (fst kv)] else []
  | _ => []
  end.

Definition missing (d : dict) (k : string) : bool :=
  negb (truthy (get d k VNone)).

Definition basic_errors (config : ApplicationConfiguration) : list string :=
  (if missing (metadata config) "name"
   then ["Configuration name is required"] else [])
  ++ (if missing (metadata config) "namespace"
      then ["Namespace is required"] else [])
  ++ (if missing (spec config) "application"
      then ["Application name is required"] else []).

(** ** Preview

    [manifests_per_spec] is the sequence of manifests as the specification
    describes it; [previewable] is the shape [_generate_manifests] needs to
    run to its end. *)

Section PreviewProperties.

Variable py_repr : value -> string.
Variable yaml_dump : value -> string.

(** [{application}-{environment}-{kind}] *)
Definition instance_name (application : value) (env_name kind : string)
  : string :=
  py_str py_repr application +:+ "-" +:+ env_name +:+ "-" +:+ kind.

Definition application_manifest (application namespace environments : value)
  : value :=
  VDict
    [("apiVersion", api_version);
     ("kind", VStr "WebApplication");
     ("metadata", VDict [("name", application); ("namespace", namespace)]);
     ("spec", VDict [("environments", environments)])].

Definition database_instance (application namespace : value)
    (env_name : string) (db : dict) : value :=
  VDict
    [("apiVersion", api_version);
     ("kind", VStr "DatabaseInstance");
     ("metadata", VDict
        [("name", VStr (instance_name application env_name "db"));
         ("namespace", namespace)]);
     ("spec", VDict
        [("type", get db "type" VNone); ("size", get db "size" VNone);
         ("environment", VStr env_name)])].

Definition cache_instance (application namespace : value)
    (env_name : string) (cache : dict) : value :=
  VDict
    [("apiVersion", api_version);
     ("kind", VStr "CacheInstance");
     ("metadata", VDict
        [("name", VStr (instance_name application env_name "cache"));
         ("namespace", namespace)]);
     ("spec", VDict
        [("type", get cache "type" VNone); ("size", get cache "size" VNone);
         ("nodes", get cache "nodes" (VInt 1));
         ("environment", VStr env_name)])].

(** The sub-spec under [k], when the environment has one (an absent, null
    or empty entry is none). *)
Definition sub_spec (env_config : value) (k : string) : option dict :=
  match env_config with
  | VDict e =>
      match get e k VNone with
      | VDict (kv :: d) => Some (kv :: d)
      | _ => None
      end
  | _ => None
  end.

Definition manifests_of_environment (application namespace : value)
    (kv : string * value) : list value :=
  match sub_spec (snd kv) "database" with
  | Some db => [database_instance application namespace (fst kv) db]
  | None => []
  end
  ++ match sub_spec (snd kv) "cache" with
     | Some cache => [cache_instance application namespace (fst kv) cache]
     | None => []
     end.

Definition manifests_per_spec (application namespace : value) (envs : dict)
  : list value :=
  application_manifest application namespace (VDict envs)
  :: flat_map (manifests_of_environment application namespace) envs.

(** A sub-spec entry the loop can handle: falsy, or a mapping with [type]
    and [size]. *)
Definition sub_spec_shaped (v : value) : bool :=
  negb (truthy v)
  || match v with
     | VDict d =>
         bool_decide (is_Some (dict_lookup d "type"))
         && bool_decide (is_Some (dict_lookup d "size"))
     | _ => false
     end.

Definition environment_previewable (env_config : value) : bool :=
  match env_config with
  | VDict e =>
      sub_spec_shaped (get e "database" VNone)
      && sub_spec_shaped (get e "cache" VNone)
  | _ => false
  end.

Definition previewable (config : ApplicationConfiguration) : bool :=
  bool_decide (is_Some (dict_lookup (spec config) "application"))
  && bool_decide (is_Some (dict_lookup (metadata config) "namespace"))
  && match environments_of config with
     | VDict envs => forallb (fun kv => environment_previewable (snd kv)) envs
     | _ => false
     end.

End PreviewProperties.

(** ** Templates *)

(** The configuration the built-in web application template gives. *)
Definition web_application_for (app_name namespace : string)
  : ApplicationConfiguration :=
  {| apiVersion := "platform.idp/v1alpha1";
     kind := "ApplicationConfiguration";
     metadata :=
       [("name", VStr (app_name +:+ "-config"));
        ("namespace", VStr namespace);
        ("labels", VDict [("app", VStr app_name);
                          ("template", VStr "web-application")])];
     spec :=
       [("application", VStr app_name);
        ("environments", VDict
           [("development", VDict
               [("replicas", VInt 1);
                ("resources", VDict
                   [("requests", VDict [("cpu", VStr "100m");
                                        ("memory", VStr "128Mi")]);
                    ("limits", VDict [("cpu", VStr "500m");
                                      ("memory", VStr "512Mi")])])]);
            ("production", VDict
               [("replicas", VInt 3);
                ("resources", VDict
                   [("requests", VDict [("cpu", VStr "500m");
                                        ("memory", VStr "512Mi")]);
                    ("limits", VDict [("cpu", VStr "1000m");
                                      ("memory", VStr "1Gi")])])])])] |}.

(** ** The store *)

(** The annotations stamping writes into: none yet, or a mapping; any
    other entry makes the stamping raise. *)
Definition annotations_dict (m : dict) : option dict :=
  match dict_lookup m "annotations" with
  | None => Some []
  | Some (VDict a) => Some a
  | Some _ => None
  end.

(** [config] with its annotations replaced by [a]. *)
Definition with_annotations (config : ApplicationConfiguration) (a : dict)
  : ApplicationConfiguration :=
  set_metadata config
    (setitem (setdefault (metadata config) "annotations" (VDict []))
       "annotations" (VDict a)).

(** [body] is [config] but for the entries [stamps] of its annotations. *)
Definition stamps_only (stamps : list (string * string))
    (config body : ApplicationConfiguration) : Prop :=
  apiVersion body = apiVersion config
  /\ kind body = kind config
  /\ spec body = spec config
  /\ (forall k, k <> "annotations" ->
        dict_lookup (metadata body) k = dict_lookup (metadata config) k)
  /\ exists a a',
       annotations_dict (metadata config) = Some a
       /\ dict_lookup (metadata body) "annotations" = Some (VDict a')
       /\ (forall key t, In (key, t) stamps ->
             dict_lookup a' key = Some (VStr t))
       /\ (forall key, ~ In key (map fst stamps) ->
             dict_lookup a' key = dict_lookup a key).

(** The world after one reading of the clock. *)
Definition tick {S : Type} (w : World S) : World S :=
  {| cluster := cluster w;
     clock_reads := Datatypes.S (clock_reads w);
     calls := calls w |}.

(** What [update_configuration] sends to the API. *)
Definition update_request {S : Type} (utcnow_isoformat : nat -> string)
    (config : ApplicationConfiguration) (w : World S) : list api_call :=
  match annotations_dict (metadata config),
        dict_lookup (metadata config) "namespace",
        dict_lookup (metadata config) "name" with
  | Some a, Some namespace, Some name =>
      [PatchCall namespace name
         (with_annotations config
            (setitem a "lastModified"
               (VStr (utcnow_isoformat (clock_reads w)))))]
  | _, _, _ => []
  end.

(** What [create_configuration] sends to the API. *)
Definition create_request {S : Type} (utcnow_isoformat : nat -> string)
    (config : ApplicationConfiguration) (w : World S) : list api_call :=
  match annotations_dict (metadata config),
        dict_lookup (metadata config) "namespace" with
  | Some a, Some namespace =>
      [CreateCall namespace
         (with_annotations config
            (setitem
               (setitem a "created" (VStr (utcnow_isoformat (clock_reads w))))
               "lastModified"
               (VStr (utcnow_isoformat (Datatypes.S (clock_reads w))))))]
  | _, _ => []
  end.

(** The body of a PUT after the route has written the path's identity in. *)
Definition with_identity (name namespace : string)
    (config : ApplicationConfiguration) : ApplicationConfiguration :=
  set_metadata config
    (setitem (setitem (metadata config) "name" (VStr name))
       "namespace" (VStr namespace)).

(** ** Polling *)

(** The "not found" answer of the status endpoint: the job is still
    running. *)
Definition is_not_found (o : http_outcome) : bool :=
  match o with
  | Response status_code _ => status_code =? 404
  | RequestFailed _ => false
  end.

(** What the client returns for the success payload [job_result]. *)
Definition success_result (job_id : value) (job_result : dict) : dict :=
  [("success", VBool true);
   ("job_id", job_id);
   ("result", get job_result "result" (VDict []));
   ("logs", get job_result "logs" (VList []))].

(** The world in which the request of turn [i] has just been answered. *)
Definition answered_at (net : Network) (w0 : NetWorld) (i : nat) : NetWorld :=
  {| now := time_at net w0 i + get_latency net (gets w0 + i);
     gets := Datatypes.S (gets w0 + i);
     sleeps := (sleeps w0 + i)%nat |}.

(** ** Sample inputs *)

Definition shop_metadata : dict :=
  [("name", VStr "shop-config"); ("namespace", VStr "team-a")].

Definition config_of (m s : dict) : ApplicationConfiguration :=
  {| apiVersion := "platform.idp/v1alpha1";
     kind := "ApplicationConfiguration";
     metadata := m;
     spec := s |}.

(** Complete but for its environments. *)
Definition config_no_environments : ApplicationConfiguration :=
  config_of shop_metadata [("application", VStr "shop")].

(** No name, namespace or application, and [environments: null]. *)
Definition config_null_environments : ApplicationConfiguration :=
  config_of [] [("environments", VNone)].

(** Nothing required is given; one environment without replicas. *)
Definition config_all_missing : ApplicationConfiguration :=
  config_of [("name", VStr "")]
    [("environments", VDict [("dev", VDict [])])].

(** [replicas: true] in the only environment. *)
Definition config_bool_replicas : ApplicationConfiguration :=
  config_of shop_metadata
    [("application", VStr "shop");
     ("environments", VDict
        [("dev", VDict
            [("replicas", VBool true);
             ("resources", resources_of "100m" "128Mi" "500m" "512Mi")])])].

(** [resources: null] in the only environment. *)
Definition config_null_resources : ApplicationConfiguration :=
  config_of shop_metadata
    [("application", VStr "shop");
     ("environments", VDict
        [("dev", VDict [("replicas", VInt 0); ("resources", VNone)])])].

(** Replica counts 2, 0, 2.5 and none; resources given only to the first. *)
Definition config_mixed_replicas : ApplicationConfiguration :=
  config_of shop_metadata
    [("application", VStr "shop");
     ("environments", VDict
        [("dev", VDict
            [("replicas", VInt 2);
             ("resources", resources_of "100m" "128Mi" "500m" "512Mi")]);
         ("test", VDict [("replicas", VInt 0)]);
         ("stage", VDict [("replicas", VFloat 2.5%float)]);
         ("prod", VDict [])])].

(** Sound but for resources: none in [dev], no limits in [prod]. *)
Definition config_only_resources_missing : ApplicationConfiguration :=
  config_of shop_metadata
    [("application", VStr "shop");
     ("environments", VDict
        [("dev", VDict [("replicas", VInt 1)]);
         ("prod", VDict
            [("replicas", VInt 3);
             ("resources", VDict
                [("requests", VDict [("cpu", VStr "500m")])])])])].

(** Two environments, a database in the first and a cache in the second. *)
Definition config_database_and_cache : ApplicationConfiguration :=
  config_of shop_metadata
    [("application", VStr "shop");
     ("environments", VDict
        [("dev", VDict
            [("replicas", VInt 1);
             ("database", VDict
                [("type", VStr "postgresql"); ("size", VStr "small")])]);
         ("prod", VDict
            [("replicas", VInt 3);
             ("cache", VDict
                [("type", VStr "redis"); ("size", VStr "large")])])])].

(** A namespace and an environment, but no application. *)
Definition config_no_application : ApplicationConfiguration :=
  config_of shop_metadata
    [("environments", VDict [("dev", VDict [("replicas", VInt 1)])])].

(** An API that is down: every request is answered with a 503. *)
Definition unavailable : exn :=
  ApiException (Some 503) "(503) Reason: Service Unavailable".

Definition unavailable_api : CustomObjectsApi unit :=
  {| create_namespaced_custom_object _ _ c := (raise unavailable, c);
     patch_namespaced_custom_object _ _ _ c := (raise unavailable, c);
     delete_namespaced_custom_object _ _ c := (raise unavailable, c) |}.

Definition world_of {S : Type} (c : S) : World S :=
  {| cluster := c; clock_reads := 0; calls := [] |}.

(** A cluster holding one configuration, [shop-config] in [team-a]. *)
Definition one_config_cluster : mem_cluster :=
  {[ ("team-a", "shop-config") := config_database_and_cache ]}.

(** pydantic's reading of a stored object, for running the examples:
    a mapping with [metadata] and [spec] mappings. *)
Definition parse_stored (v : value) : result ApplicationConfiguration :=
  match v with
  | VDict d =>
      match dict_lookup d "metadata", dict_lookup d "spec" with
      | Some (VDict m), Some (VDict s) => ret (config_of m s)
      | _, _ => raise (RuntimeError "validation error")
      end
  | _ => raise (RuntimeError "validation error")
  end.

(** A clock for the examples. *)
Definition example_clock (i : nat) : string :=
  match i with
  | O => "2024-06-01T12:00:00.000001"
  | _ => "2024-06-01T12:00:00.000002"
  end.

(** A configuration created some time ago, resubmitted with a change. *)
Definition config_created_before : ApplicationConfiguration :=
  config_of
    [("name", VStr "shop-config"); ("namespace", VStr "team-a");
     ("annotations", VDict
        [("created", VStr "2024-01-15T08:30:00.000000");
         ("lastModified", VStr "2024-01-15T08:30:00.000000");
         ("owner", VStr "team-a")])]
    [("application", VStr "shop");
     ("environments", VDict [("dev", VDict [("replicas", VInt 2)])])].

(** A body that claims to be another configuration in another namespace. *)
Definition config_claiming_other : ApplicationConfiguration :=
  config_of
    [("namespace", VStr "team-b"); ("name", VStr "billing-config");
     ("labels", VDict [("app", VStr "shop")])]
    [("application", VStr "shop")].

(** Networks for the examples: each request takes 20 ms. *)

Definition job_payload : dict :=
  [("result", VDict [("success", VBool true)]);
   ("logs", VList [VStr "bootstrap done"])].

(** "Not found" twice, then the result. *)
Definition ready_third_net : Network :=
  {| get_outcome i :=
       match i with
       | 0%nat | 1%nat => Response 404 (ret (VDict []))
       | _ => Response 200 (ret (VDict job_payload))
       end;
     get_latency _ := 20;
     sleep_extra _ := 1 |}.

(** "Not found" for ever. *)
Definition never_ready_net : Network :=
  {| get_outcome _ := Response 404 (ret (VDict []));
     get_latency _ := 20;
     sleep_extra _ := 1 |}.

(** "Not found" once, then a server error. *)
Definition failing_net : Network :=
  {| get_outcome i :=
       match i with
       | 0%nat => Response 404 (ret (VDict []))
       | _ => Response 500 (ret (VDict []))
       end;
     get_latency _ := 20;
     sleep_extra _ := 1 |}.

Definition fresh_world : NetWorld := {| now := 0; gets := 0; sleeps := 0 |}.

(** * The read operations and the health report

    The rest of the manager ([list_configurations], [get_configuration]
    and their routes) and the report formatting of the agent's health
    tool. *)

(** The reading half of [custom_objects_api]. *)
Record CustomObjectsReadApi (S : Type) : Type := {
  list_namespaced_custom_object : string -> S -> result value * S;
  list_cluster_custom_object : S -> result value * S;
  get_namespaced_custom_object : string -> string -> S -> result value * S
}.

Arguments list_namespaced_custom_object {S} _ _ _.
Arguments list_cluster_custom_object {S} _ _.
Arguments get_namespaced_custom_object {S} _ _ _ _.

(** A request that is answered without being recorded among [calls]. *)
Definition ask {S A : Type} (respond : S -> result A * S) : M S A :=
  fun w =>
    let '(r, c) := respond (cluster w) in
    (r, {| cluster := c; clock_reads := clock_reads w; calls := calls w |}).

Section Reads.

Context {S : Type}.
Variable api : CustomObjectsReadApi S.
Variable parse_configuration : value -> result ApplicationConfiguration.

(** The characters of a Python string, as iterating over it yields them. *)
Variable py_chars : string -> list string.

(** [for x in v] *)
Definition py_iter (v : value) : result (list value) :=
  match v with
  | VList xs => ret xs
  | VDict d => ret (map (fun kv => VStr (fst kv)) d)
  | VStr s => ret (map VStr (py_chars s))
  | _ => raise (TypeError ("'" +:+ type_name v +:+ "' object is not iterable"))
  end.

(** The list comprehension over the items: the first item that fails to
    parse ends it. *)
Fixpoint parse_all (items : list value)
  : result (list ApplicationConfiguration) :=
  match items with
  | [] => ret []
  | item :: rest =>
      let* config := parse_configuration item in
      let* configs := parse_all rest in
      ret (config :: configs)
  end.

Definition list_configurations (namespace : option string)
  : M S (list ApplicationConfiguration) :=
  except_ApiException
    (do configs <-
       match namespace with
       | Some ns =>
           if negb (String.eqb ns "")
           then ask (list_namespaced_custom_object api ns)
           else ask (list_cluster_custom_object api)
       | None => ask (list_cluster_custom_object api)
       end;
     lift (let* items := py_get configs "items" (VList []) in
           let* items := py_iter items in
           parse_all items))
    (fun status reason => mret []).

Definition get_configuration (name namespace : string)
  : M S (option ApplicationConfiguration) :=
  except_ApiException
    (do config <- ask (get_namespaced_custom_object api namespace name);
     do parsed <- lift (parse_configuration config);
     mret (Some parsed))
    (fun status reason =>
       if bool_decide (status = Some 404) then mret None
       else mraise (HTTPException 500
                      ("Failed to get configuration: " +:+ reason))).

End Reads.

(** The routes of the read operations. *)
Module ReadRoutes.
Section Handlers.

Context {S : Type}.
Variable api : CustomObjectsReadApi S.
Variable parse_configuration : value -> result ApplicationConfiguration.
Variable py_chars : string -> list string.

(** [GET /configurations/{namespace}] *)
Definition list_configurations_in_namespace (namespace : string)
  : M S (list ApplicationConfiguration) :=
  list_configurations api parse_configuration py_chars (Some namespace).

(** [GET /configurations] *)
Definition list_configurations (namespace : option string)
  : M S (list ApplicationConfiguration) :=
  list_configurations api parse_configuration py_chars namespace.

(** [GET /configurations/{namespace}/{name}] *)
Definition get_configuration (name namespace : string)
  : M S ApplicationConfiguration :=
  do config <- get_configuration api parse_configuration name namespace;
  match config with
  | None => mraise (HTTPException 404 "Configuration not found")
  | Some config => mret config
  end.

End Handlers.
End ReadRoutes.

(** ** [PlatformHealthTool._format_component_status] *)

Section HealthReport.

Variable py_repr : value -> string.

(** [str.upper] *)
Variable str_upper : string -> string.

(** [v.upper()] *)
Definition py_upper (v : value) : result string :=
  match v with
  | VStr s => ret (str_upper s)
  | _ => raise (AttributeError (type_name v) "upper")
  end.

(** The line of one component. *)
Definition component_line (name : string) (info : value) : result string :=
  match info with
  | VDict d =>
      let status := get d "status" (VStr "unknown") in
      let score := get d "score" (VInt 0) in
      let* upper := py_upper status in
      ret ("  " +:+ name +:+ ": " +:+ upper +:+ " (Score: "
           +:+ py_str py_repr score +:+ "/100)")
  | _ => ret ("  " +:+ name +:+ ": " +:+ py_str py_repr info)
  end.

Fixpoint component_lines (items : list (string * value)) (lines : list string)
  : result (list string) :=
  match items with
  | [] => ret lines
  | (name, info) :: rest =>
      let* line := component_line name info in
      component_lines rest (lines ++ [line])
  end.

Definition _format_component_status (components : value) : result string :=
  if negb (truthy components) then ret "No component data available"
  else
    let lines := [] in
    let* items := py_items components in
    let* lines := component_lines items lines in
    ret (String.concat newline lines).

End HealthReport.

(** ** More shapes and sample inputs *)

(** The namespace a manifest is for. *)
Definition manifest_namespace (m : value) : option value :=
  match m with
  | VDict d =>
      match dict_lookup d "metadata" with
      | Some (VDict md) => dict_lookup md "namespace"
      | _ => None
      end
  | _ => None
  end.

(** The [apiVersion] of a manifest. *)
Definition manifest_apiVersion (m : value) : option value :=
  match m with
  | VDict d => dict_lookup d "apiVersion"
  | _ => None
  end.

Definition has_sub_spec (k : string) (kv : string * value) : bool :=
  match sub_spec (snd kv) k with
  | Some _ => true
  | None => false
  end.

(** A template from the template directory that fixes the application. *)
Definition worker_template : ConfigurationTemplate :=
  {| name := "worker";
     description := "Queue worker";
     type := "worker";
     configuration :=
       [("spec", VDict
          [("application", VStr "queue-worker");
           ("environments", VDict
              [("production", VDict [("replicas", VInt 2)])])])]
  |}.

(** A directory with one file that fails to load and the worker template. *)
Definition sample_files : template_files := [None; Some worker_template].

(** The request [list_configurations] makes: of one namespace when it is
    given one that is not empty, of the whole cluster otherwise. *)
Definition list_request {S : Type} (api : CustomObjectsReadApi S)
    (namespace : option string) : S -> result value * S :=
  match namespace with
  | Some ns =>
      if negb (String.eqb ns "") then list_namespaced_custom_object api ns
      else list_cluster_custom_object api
  | None => list_cluster_custom_object api
  end.

(** What the [except ApiException] clauses of create, update and get make
    of a fault of the API: a service error with the fault's text. *)
Definition as_service_error {A : Type} (prefix : string) (r : result A)
  : result A :=
  match r with
  | inl (ApiException _ reason) => raise (HTTPException 500 (prefix +:+ reason))
  | other => other
  end.

(** A reading API that gives every request the same answer. *)
Definition answering (answer : result value) : CustomObjectsReadApi unit :=
  {| list_namespaced_custom_object _ c := (answer, c);
     list_cluster_custom_object c := (answer, c);
     get_namespaced_custom_object _ _ c := (answer, c) |}.

(** An API answer with the sample configuration and one that is no
    configuration. *)
Definition stored_items : value :=
  VDict [("items", VList [body_value config_database_and_cache;
                          body_value config_created_before])].

(** The body [update_configuration] sends for a configuration with
    annotations [a]. *)
Definition update_body {S : Type} (utcnow_isoformat : nat -> string)
    (config : ApplicationConfiguration) (a : dict) (w : World S)
  : ApplicationConfiguration :=
  with_annotations config
    (setitem a "lastModified" (VStr (utcnow_isoformat (clock_reads w)))).

(** The body [create_configuration] sends for a configuration with
    annotations [a]. *)
Definition create_body {S : Type} (utcnow_isoformat : nat -> string)
    (config : ApplicationConfiguration) (a : dict) (w : World S)
  : ApplicationConfiguration :=
  with_annotations config
    (setitem
       (setitem a "created" (VStr (utcnow_isoformat (clock_reads w))))
       "lastModified"
       (VStr (utcnow_isoformat (Datatypes.S (clock_reads w))))).

(** [annotations: null] on an otherwise sound configuration. *)
Definition config_null_annotations : ApplicationConfiguration :=
  config_of
    [("name", VStr "shop-config"); ("namespace", VStr "team-a");
     ("annotations", VNone)]
    [("application", VStr "shop")].

(** A configuration without a namespace. *)
Definition config_no_namespace : ApplicationConfiguration :=
  config_of [("name", VStr "shop-config")] [("application", VStr "shop")].

(** The two shapes of a result of [run_flow]: a success with the job's
    id, result and logs, or a failure with an error text. *)
Definition result_shaped (d : dict) : bool :=
  match dict_lookup d "success" with
  | Some (VBool true) =>
      bool_decide (is_Some (dict_lookup d "job_id"))
      && bool_decide (is_Some (dict_lookup d "result"))
      && bool_decide (is_Some (dict_lookup d "logs"))
  | Some (VBool false) =>
      match dict_lookup d "error" with
      | Some (VStr _) => true
      | _ => false
      end
  | _ => false
  end.

(** A component whose line can be written: no mapping, or a mapping whose
    status, if it has one, is a string. *)
Definition status_printable (info : value) : bool :=
  match info with
  | VDict d =>
      match get d "status" (VStr "unknown") with
      | VStr _ => true
      | _ => false
      end
  | _ => true
  end.

(** The components of a health report: a mapping with a status and a
    score, a mapping without a status, and a plain string. *)
Definition sample_components : value :=
  VDict [("istio", VDict [("status", VStr "healthy"); ("score", VInt 95)]);
         ("argocd", VDict [("score", VInt 40)]);
         ("backstage", VStr "starting")].

(** A component whose status is [null]. *)
Definition components_null_status : value :=
  VDict [("istio", VDict [("status", VNone); ("score", VInt 0)])].

(** An upper-casing of the letters a to z, for running the examples. *)
Fixpoint ascii_upper (s : string) : string :=
  match s with
  | EmptyString => EmptyString
  | String c s' =>
      let n := Ascii.nat_of_ascii c in
      String
        (if ((97 <=? n) && (n <=? 122))%nat then Ascii.ascii_of_nat (n - 32)
         else c)
        (ascii_upper s')
  end.

(** * Properties *)

(** ** Validation: what it computes *)

(** *** Strings and dictionaries *)

Lemma append_inj_l (p s t : string) : p +:+ s = p +:+ t -> s = t.
Proof.
  induction p as [|c p IH]; simpl; intros H; [exact H|].
  injection H as H. auto.
Qed.

Lemma replica_error_inj (a b : string) :
  replica_error a = replica_error b -> a = b.
Proof. apply append_inj_l. Qed.

Lemma replica_error_not_basic (config : ApplicationConfiguration) (n : string) :
  ~ In (replica_error n) (basic_errors config).
Proof.
  unfold basic_errors, replica_error. intros H.
  repeat (apply in_app_or in H; destruct H as [H|H]);
    (destruct (missing _ _); simpl in H; [destruct H as [H|[]]; discriminate H | destruct H]).
Qed.

Lemma dict_wf_functional (d : dict) (k : string) (v1 v2 : value) :
  dict_wf d -> In (k, v1) d -> In (k, v2) d -> v1 = v2.
Proof.
  unfold dict_wf, keys. induction d as [|[k' v'] d IH]; simpl; [tauto|].
  intros Hnd H1 H2. inversion Hnd as [|? ? Hnotin Hnd']; subst.
  destruct H1 as [H1|H1], H2 as [H2|H2].
  - congruence.
  - injection H1 as -> ->. exfalso. apply Hnotin.
    change k with (fst (k, v2)). now apply in_map.
  - injection H2 as -> ->. exfalso. apply Hnotin.
    change k with (fst (k, v1)). now apply in_map.
  - auto.
Qed.

Lemma dict_lookup_get (d : dict) (k : string) (v default : value) :
  dict_lookup d k = Some v -> get d k default = v.
Proof. unfold get. now intros ->. Qed.

Lemma dict_lookup_none_get (d : dict) (k : string) (default : value) :
  dict_lookup d k = None -> get d k default = default.
Proof. unfold get. now intros ->. Qed.

(** *** The loop over the environments *)

Lemma validate_environment_shaped (n : string) (e : value)
    (es ws : list string) :
  environment_shaped e = true ->
  validate_environment n e (es, ws)
  = ret (es ++ env_errors (n, e), ws ++ env_warnings (n, e)).
Proof.
  unfold environment_shaped, validate_environment, env_errors, env_warnings,
    invalid_replicas, lacks_resources.
  destruct e as [| | | | | |d]; try discriminate. simpl.
  destruct (get d "resources" (VDict [])) as [| | | | | |r]; try discriminate.
  intros _. simpl.
  destruct (negb (isinstance_int (get d "replicas" VNone))
            || le_zero (get d "replicas" (VInt 0)));
    destruct (negb (truthy (get r "requests" VNone))
              || negb (truthy (get r "limits" VNone)));
    now rewrite ?app_nil_r.
Qed.

Lemma validate_environment_unshaped (n : string) (e : value)
    (acc : list string * list string) :
  environment_shaped e = false ->
  exists x, validate_environment n e acc = raise x.
Proof.
  unfold environment_shaped, validate_environment. destruct acc as [es ws].
  destruct e as [| | | | | |d]; simpl; try (intros _; eexists; reflexivity).
  destruct (get d "resources" (VDict [])) as [| | | | | |r]; simpl;
    try discriminate; intros _; eexists; reflexivity.
Qed.

Lemma validate_environments_shaped (items : list (string * value)) :
  forall es ws,
  forallb (fun kv => environment_shaped (snd kv)) items = true ->
  validate_environments items (es, ws)
  = ret (es ++ flat_map env_errors items, ws ++ flat_map env_warnings items).
Proof.
  induction items as [|[n e] items IH]; intros es ws H;
    cbn [validate_environments forallb flat_map snd] in *.
  - now rewrite !app_nil_r.
  - apply andb_prop in H as [He Hrest].
    rewrite (validate_environment_shaped n e es ws He). cbn [bind ret].
    rewrite IH by exact Hrest. now rewrite <- !app_assoc.
Qed.

Lemma validate_environments_unshaped (items : list (string * value)) :
  forall acc,
  forallb (fun kv => environment_shaped (snd kv)) items = false ->
  exists x, validate_environments items acc = raise x.
Proof.
  induction items as [|[n e] items IH]; intros acc H;
    cbn [validate_environments forallb snd] in *; [discriminate|].
  destruct (environment_shaped e) eqn:He; cbn [andb] in H.
  - destruct acc as [es ws].
    rewrite (validate_environment_shaped n e es ws He). cbn [bind ret].
    now apply IH.
  - destruct (validate_environment_unshaped n e acc He) as [x ->].
    now exists x.
Qed.

(** On a configuration of the right shape validation returns, and this is
    what it returns. *)
Lemma validate_configuration_shaped (config : ApplicationConfiguration)
    (envs : dict) :
  environments_of config = VDict envs ->
  validates config = true ->
  validate_configuration config
  = ret {| valid := (length (basic_errors config ++ flat_map env_errors envs)
                     =? 0)%nat;
           errors := basic_errors config ++ flat_map env_errors envs;
           warnings := (if negb (truthy (VDict envs))
                        then ["No environments configured"] else [])
                       ++ flat_map env_warnings envs |}.
Proof.
  unfold validates, validate_configuration, environments_of.
  intros -> Hshape. simpl py_items. cbn [bind ret].
  rewrite validate_environments_shaped by exact Hshape. cbn [bind ret].
  unfold basic_errors, missing.
  destruct (negb (truthy (get (metadata config) "name" VNone)));
    destruct (negb (truthy (get (metadata config) "namespace" VNone)));
    destruct (negb (truthy (get (spec config) "application" VNone)));
    reflexivity.
Qed.

(** Validation returns a result exactly on the configurations of that shape;
    on every other it raises. *)
Lemma validate_returns_iff (config : ApplicationConfiguration) :
  (exists r, validate_configuration config = ret r) <-> validates config = true.
Proof.
  split.
  - intros [r Hr]. destruct (validates config) eqn:Hv; [reflexivity|].
    exfalso. revert Hr Hv.
    unfold validates, validate_configuration, environments_of.
    destruct (get (spec config) "environments" (VDict [])) as [| | | | | |envs];
      try discriminate.
    simpl py_items. cbn [bind ret]. intros Hr Hv.
    destruct (validate_environments_unshaped envs
                (basic_errors config,
                 if negb (truthy (VDict envs))
                 then ["No environments configured"] else []) Hv) as [x Hx].
    revert Hr. unfold basic_errors, missing in Hx.
    destruct (negb (truthy (get (metadata config) "name" VNone)));
      destruct (negb (truthy (get (metadata config) "namespace" VNone)));
      destruct (negb (truthy (get (spec config) "application" VNone)));
      simpl in Hx |- *; rewrite Hx; discriminate.
  - intros Hv. assert (Hv' := Hv). unfold validates in Hv'.
    destruct (environments_of config) as [| | | | | |envs] eqn:He;
      try discriminate.
    eexists. now apply (validate_configuration_shaped config envs).
Qed.

Lemma validate_valid_spec (config : ApplicationConfiguration)
    (r : ValidationResult) :
  validate_configuration config = ret r ->
  valid r = (length (errors r) =? 0)%nat.
Proof.
  intros Hr.
  assert (Hv : validates config = true)
    by (apply validate_returns_iff; now exists r).
  assert (Hv' := Hv). unfold validates in Hv'.
  destruct (environments_of config) as [| | | | | |envs] eqn:He;
    try discriminate.
  rewrite (validate_configuration_shaped config envs He Hv) in Hr.
  injection Hr as <-. reflexivity.
Qed.

Lemma In_env_errors (x : string) (envs : dict) :
  In x (flat_map env_errors envs) ->
  exists n e, In (n, VDict e) envs /\ invalid_replicas e = true
              /\ x = replica_error n.
Proof.
  intros H. apply in_flat_map in H as [[n v] [Hin Hx]].
  unfold env_errors in Hx. simpl in Hx.
  destruct v as [| | | | | |e]; try contradiction.
  destruct (invalid_replicas e) eqn:Hinv; [|contradiction].
  destruct Hx as [Hx|[]]. now exists n, e.
Qed.

Lemma env_errors_In (n : string) (e envs : dict) :
  In (n, VDict e) envs -> invalid_replicas e = true ->
  In (replica_error n) (flat_map env_errors envs).
Proof.
  intros Hin Hinv. apply in_flat_map. exists (n, VDict e). split; [exact Hin|].
  unfold env_errors. simpl. rewrite Hinv. now left.
Qed.

Lemma env_warnings_In (n : string) (e envs : dict) :
  In (n, VDict e) envs -> lacks_resources e = true ->
  In (resource_warning n) (flat_map env_warnings envs).
Proof.
  intros Hin Hl. apply in_flat_map. exists (n, VDict e). split; [exact Hin|].
  unfold env_warnings. simpl. rewrite Hl. now left.
Qed.

Lemma env_errors_positive (n : string) (e : dict) (k : Z) :
  dict_lookup e "replicas" = Some (VInt k) -> 0 < k ->
  env_errors (n, VDict e) = [].
Proof.
  intros Hl Hpos. unfold env_errors, invalid_replicas. cbn [snd fst].
  rewrite !(dict_lookup_get _ _ _ _ Hl).
  unfold le_zero. cbn [isinstance_int int_value negb orb].
  destruct (k <=? 0) eqn:Hk; [apply Z.leb_le in Hk; lia | reflexivity].
Qed.

Lemma env_errors_all_positive (envs : dict) :
  (forall env_name env_config,
     In (env_name, env_config) envs ->
     exists e n, env_config = VDict e
                 /\ dict_lookup e "replicas" = Some (VInt n) /\ 0 < n) ->
  flat_map env_errors envs = [].
Proof.
  induction envs as [|[n v] envs IH]; intros Hrep; [reflexivity|].
  cbn [flat_map].
  destruct (Hrep n v (or_introl eq_refl)) as (e & k & -> & Hl & Hpos).
  rewrite (env_errors_positive n e k Hl Hpos). cbn [app].
  apply IH. intros env_name env_config Hin.
  apply (Hrep env_name env_config). now right.
Qed.

(** ** Validation: the claims *)

(** C1: whatever configuration it is given, the result validation returns
    has [valid = true] exactly when its error list is empty; validity is
    read off the error list alone, so the warnings have no part in it. *)
Theorem validate_valid_iff_no_errors (config : ApplicationConfiguration)
    (r : ValidationResult) :
  validate_configuration config = ret r ->
  (valid r = true <-> errors r = [])
  /\ (forall config' r',
        validate_configuration config' = ret r' ->
        errors r' = errors r -> valid r' = valid r).
Proof.
  intros Hr. split.
  - rewrite (validate_valid_spec config r Hr).
    destruct (errors r); simpl; split; congruence.
  - intros config' r' Hr' Heq.
    rewrite (validate_valid_spec config r Hr),
      (validate_valid_spec config' r' Hr'), Heq. reflexivity.
Qed.

(** A configuration with a warning and no error is valid. *)
Lemma validate_valid_iff_no_errors_witness :
  validate_configuration config_no_environments
  = ret {| valid := true; errors := [];
           warnings := ["No environments configured"] |}
  /\ (true = true <-> @nil string = []).
Proof.
  split; [reflexivity|].
  exact (proj1 (validate_valid_iff_no_errors config_no_environments
                  {| valid := true; errors := [];
                     warnings := ["No environments configured"] |}
                  eq_refl)).
Defined.

(** C2, as the code has it: on a configuration validation can run through
    (its environments, if given, are a mapping of mappings whose
    [resources], if given, are mappings), a missing or empty name,
    namespace or application each makes the result invalid and puts its
    own message in the error list. *)
Theorem validate_missing_fields (config : ApplicationConfiguration) :
  validates config = true ->
  exists r, validate_configuration config = ret r
    /\ (truthy (get (metadata config) "name" VNone) = false ->
        valid r = false /\ In "Configuration name is required" (errors r))
    /\ (truthy (get (metadata config) "namespace" VNone) = false ->
        valid r = false /\ In "Namespace is required" (errors r))
    /\ (truthy (get (spec config) "application" VNone) = false ->
        valid r = false /\ In "Application name is required" (errors r)).
Proof.
  intros Hv. assert (Hv' := Hv). unfold validates in Hv'.
  destruct (environments_of config) as [| | | | | |envs] eqn:He;
    try discriminate.
  eexists. split; [apply (validate_configuration_shaped config envs He Hv)|].
  cbn [valid errors]. unfold basic_errors, missing.
  split; [|split]; intros Hm; rewrite Hm; cbn [negb];
    repeat match goal with
           | |- context [if ?b then _ else _] => destruct b
           end; simpl; auto 10.
Qed.

Lemma validate_missing_fields_witness :
  exists r, validate_configuration config_all_missing = ret r
    /\ valid r = false
    /\ In "Configuration name is required" (errors r)
    /\ In "Namespace is required" (errors r)
    /\ In "Application name is required" (errors r).
Proof.
  destruct (validate_missing_fields config_all_missing eq_refl)
    as (r & Hr & Hname & Hns & Happ).
  exists r. split; [exact Hr|].
  split; [exact (proj1 (Hname eq_refl))|].
  split; [exact (proj2 (Hname eq_refl))|].
  split; [exact (proj2 (Hns eq_refl)) | exact (proj2 (Happ eq_refl))].
Defined.

(** C2 as stated fails: with [environments: null] validation raises
    instead of reporting the missing name, namespace and application. *)
Lemma validate_missing_fields_raises :
  missing (metadata config_null_environments) "name" = true
  /\ validate_configuration config_null_environments
     = raise (AttributeError "NoneType" "items").
Proof. split; reflexivity. Qed.

(** C3, as the code has it: on a configuration validation can run through,
    an environment whose replica count is an integer above 0 gets no
    replica error, and one whose replica count is an integer at most 0, a
    value that is no [int] instance, or absent gets the replica error with
    its name.  (Booleans are [int] instances in Python and are left aside
    here.) *)
Theorem validate_replica_errors (config : ApplicationConfiguration)
    (envs : dict) :
  validates config = true ->
  environments_of config = VDict envs ->
  dict_wf envs ->
  exists r, validate_configuration config = ret r
    /\ forall env_name env_config,
         In (env_name, VDict env_config) envs ->
         (forall n, dict_lookup env_config "replicas" = Some (VInt n) ->
                    0 < n -> ~ In (replica_error env_name) (errors r))
         /\ (forall n, dict_lookup env_config "replicas" = Some (VInt n) ->
                       n <= 0 -> In (replica_error env_name) (errors r))
         /\ (forall v, dict_lookup env_config "replicas" = Some v ->
                       isinstance_int v = false ->
                       In (replica_error env_name) (errors r))
         /\ (dict_lookup env_config "replicas" = None ->
             In (replica_error env_name) (errors r)).
Proof.
  intros Hv He Hwf. eexists.
  split; [apply (validate_configuration_shaped config envs He Hv)|].
  cbn [errors]. intros env_name e Hin. repeat split.
  - intros n Hl Hpos Hmem. apply in_app_or in Hmem as [Hmem|Hmem].
    + now apply replica_error_not_basic in Hmem.
    + apply In_env_errors in Hmem as (n' & e' & Hin' & Hinv & Heq).
      apply replica_error_inj in Heq. subst n'.
      assert (VDict e' = VDict e) as [= ->]
        by exact (dict_wf_functional envs env_name _ _ Hwf Hin' Hin).
      unfold invalid_replicas in Hinv.
      rewrite !(dict_lookup_get _ _ _ _ Hl) in Hinv. simpl in Hinv.
      apply Z.leb_le in Hinv. lia.
  - intros n Hl Hle. apply in_or_app. right.
    apply (env_errors_In env_name e envs Hin).
    unfold invalid_replicas. rewrite !(dict_lookup_get _ _ _ _ Hl). simpl.
    now apply Z.leb_le.
  - intros v Hl Hv'. apply in_or_app. right.
    apply (env_errors_In env_name e envs Hin).
    unfold invalid_replicas. rewrite !(dict_lookup_get _ _ _ _ Hl).
    now rewrite Hv'.
  - intros Hl. apply in_or_app. right.
    apply (env_errors_In env_name e envs Hin).
    unfold invalid_replicas. now rewrite !(dict_lookup_none_get _ _ _ Hl).
Qed.

Lemma validate_replica_errors_witness :
  exists r, validate_configuration config_mixed_replicas = ret r
    /\ (In (replica_error "dev") (errors r) -> False)
    /\ In (replica_error "test") (errors r)
    /\ In (replica_error "stage") (errors r)
    /\ In (replica_error "prod") (errors r).
Proof.
  destruct (validate_replica_errors config_mixed_replicas _
              eq_refl eq_refl) as (r & Hr & Henv).
  { unfold dict_wf. simpl.
    repeat (constructor; [simpl; intuition discriminate|]). constructor. }
  exists r. split; [exact Hr|].
  split; [|split; [|split]].
  - destruct (Henv "dev"
                [("replicas", VInt 2);
                 ("resources", resources_of "100m" "128Mi" "500m" "512Mi")])
      as (Hpos & _); [simpl; tauto|].
    apply (Hpos 2 eq_refl). lia.
  - destruct (Henv "test" [("replicas", VInt 0)]) as (_ & Hle & _);
      [simpl; tauto|].
    apply (Hle 0 eq_refl). lia.
  - destruct (Henv "stage" [("replicas", VFloat 2.5%float)])
      as (_ & _ & Hnoint & _); [simpl; tauto|].
    exact (Hnoint _ eq_refl eq_refl).
  - destruct (Henv "prod" []) as (_ & _ & _ & Hnone); [simpl; tauto|].
    exact (Hnone eq_refl).
Defined.

(** C3 as stated fails twice over: a replica count of [true], which is no
    integer, passes without an error; and an environment with
    [resources: null] makes validation raise, so that no error list is
    returned for its replica count of 0. *)
Lemma validate_replica_errors_fail :
  validate_configuration config_bool_replicas
  = ret {| valid := true; errors := []; warnings := [] |}
  /\ validate_configuration config_null_resources
     = raise (AttributeError "NoneType" "get").
Proof. split; reflexivity. Qed.

(** C4, as the code has it: on a configuration validation can run through,
    every environment whose [resources] lack requests or limits (or are
    not given at all) gets the warning with its name, and a configuration
    with name, namespace and application whose environments all have an
    integer replica count above 0 is valid whatever its resources are. *)
Theorem validate_resource_warnings (config : ApplicationConfiguration)
    (envs : dict) :
  validates config = true ->
  environments_of config = VDict envs ->
  exists r, validate_configuration config = ret r
    /\ (forall env_name env_config,
          In (env_name, VDict env_config) envs ->
          lacks_resources env_config = true ->
          In (resource_warning env_name) (warnings r))
    /\ (missing (metadata config) "name" = false ->
        missing (metadata config) "namespace" = false ->
        missing (spec config) "application" = false ->
        (forall env_name env_config,
           In (env_name, env_config) envs ->
           exists e n, env_config = VDict e
                       /\ dict_lookup e "replicas" = Some (VInt n) /\ 0 < n) ->
        valid r = true).
Proof.
  intros Hv He. eexists.
  split; [apply (validate_configuration_shaped config envs He Hv)|].
  cbn [valid warnings]. split.
  - intros env_name e Hin Hl. apply in_or_app. right.
    now apply (env_warnings_In env_name e envs).
  - intros Hname Hns Happ Hrep.
    unfold basic_errors. rewrite Hname, Hns, Happ.
    now rewrite (env_errors_all_positive envs Hrep).
Qed.

Lemma validate_resource_warnings_witness :
  exists r, validate_configuration config_only_resources_missing = ret r
    /\ In (resource_warning "dev") (warnings r)
    /\ In (resource_warning "prod") (warnings r)
    /\ valid r = true.
Proof.
  destruct (validate_resource_warnings config_only_resources_missing _
              eq_refl eq_refl) as (r & Hr & Hwarn & Hvalid).
  exists r. split; [exact Hr|].
  split; [|split].
  - apply (Hwarn "dev" [("replicas", VInt 1)]); [simpl; tauto | reflexivity].
  - apply (Hwarn "prod"
             [("replicas", VInt 3);
              ("resources", VDict
                 [("requests", VDict [("cpu", VStr "500m")])])]);
      [simpl; tauto | reflexivity].
  - apply Hvalid; try reflexivity.
    intros env_name env_config [[= <- <-]|[[= <- <-]|[]]].
    + exists [("replicas", VInt 1)], 1. repeat split.
    + eexists _, 3. repeat split.
Defined.

(** C4 as stated fails: an environment with [resources: null] lacks
    requests and limits, and validation raises instead of warning. *)
Lemma validate_resource_warnings_raises :
  validate_configuration
    (config_of shop_metadata
       [("application", VStr "shop");
        ("environments", VDict
           [("dev", VDict [("replicas", VInt 1); ("resources", VNone)])])])
  = raise (AttributeError "NoneType" "get").
Proof. reflexivity. Qed.

(** ** Preview: the sequence of manifests

    On a previewable configuration the code emits exactly the specified
    sequence; on every other one it raises. *)

Section PreviewProofs.

Variable py_repr : value -> string.
Variable yaml_dump : value -> string.

Lemma getitem_lookup (d : dict) (k : string) (v : value) :
  getitem d k = ret v <-> dict_lookup d k = Some v.
Proof.
  unfold getitem. destruct (dict_lookup d k); split; intros H;
    try discriminate; injection H as ->; reflexivity.
Qed.

Lemma get_dict_lookup (d : dict) (k : string) (x : dict) :
  get d k VNone = VDict x -> dict_lookup d k = Some (VDict x).
Proof. unfold get. destruct (dict_lookup d k); [now intros ->|discriminate]. Qed.

Lemma sub_spec_shaped_cases (v : value) :
  sub_spec_shaped v = true ->
  truthy v = false
  \/ exists kv d, v = VDict (kv :: d)
       /\ is_Some (dict_lookup (kv :: d) "type")
       /\ is_Some (dict_lookup (kv :: d) "size").
Proof.
  unfold sub_spec_shaped. destruct (truthy v) eqn:Ht; [|now left].
  cbn [negb orb]. destruct v as [| | | | | |d]; try discriminate.
  destruct d as [|kv d]; [discriminate|].
  intros H. apply andb_prop in H as [H1 H2].
  apply bool_decide_eq_true in H1, H2. right. now exists kv, d.
Qed.

Lemma sub_spec_falsy (e : dict) (k : string) :
  truthy (get e k VNone) = false -> sub_spec (VDict e) k = None.
Proof.
  unfold sub_spec. destruct (get e k VNone) as [| | | | | |[|kv d]];
    try reflexivity. discriminate.
Qed.

Lemma db_manifest_shaped (config : ApplicationConfiguration)
    (application namespace : value) (n : string) (db : dict) :
  getitem (spec config) "application" = ret application ->
  getitem (metadata config) "namespace" = ret namespace ->
  is_Some (dict_lookup db "type") -> is_Some (dict_lookup db "size") ->
  db_manifest py_repr config n (VDict db)
  = ret (database_instance py_repr application namespace n db).
Proof.
  intros Ha Hn [ty Hty] [sz Hsz]. unfold db_manifest, database_instance.
  rewrite Ha, Hn. cbn [bind ret py_getitem]. unfold getitem, get.
  rewrite Hty, Hsz. reflexivity.
Qed.

Lemma cache_manifest_shaped (config : ApplicationConfiguration)
    (application namespace : value) (n : string) (cache : dict) :
  getitem (spec config) "application" = ret application ->
  getitem (metadata config) "namespace" = ret namespace ->
  is_Some (dict_lookup cache "type") -> is_Some (dict_lookup cache "size") ->
  cache_manifest py_repr config n (VDict cache)
  = ret (cache_instance py_repr application namespace n cache).
Proof.
  intros Ha Hn [ty Hty] [sz Hsz]. unfold cache_manifest, cache_instance.
  rewrite Ha, Hn. cbn [bind ret py_getitem py_get]. unfold getitem.
  rewrite Hty, Hsz. unfold get at 2 3. rewrite Hty, Hsz. reflexivity.
Qed.

Lemma environment_manifests_shaped (config : ApplicationConfiguration)
    (application namespace : value) (n : string) (e : value) :
  getitem (spec config) "application" = ret application ->
  getitem (metadata config) "namespace" = ret namespace ->
  environment_previewable e = true ->
  environment_manifests py_repr config n e
  = ret (manifests_of_environment py_repr application namespace (n, e)).
Proof.
  intros Ha Hn Hshape. destruct e as [| | | | | |e]; try discriminate.
  cbn [environment_previewable] in Hshape.
  apply andb_prop in Hshape as [Hdb Hcache].
  unfold environment_manifests, manifests_of_environment.
  cbn [py_get bind ret fst snd].
  apply sub_spec_shaped_cases in Hdb as [Hdb|(kv & d & Hdb & Hty & Hsz)];
    apply sub_spec_shaped_cases in Hcache
      as [Hcache|(kv' & d' & Hcache & Hty' & Hsz')].
  - rewrite Hdb, Hcache, !sub_spec_falsy by assumption. reflexivity.
  - rewrite Hdb, sub_spec_falsy by assumption.
    unfold sub_spec. rewrite Hcache. cbn [truthy py_getitem bind ret].
    apply get_dict_lookup in Hcache. unfold getitem at 1. rewrite Hcache.
    cbn [bind ret].
    rewrite (cache_manifest_shaped config application namespace n _ Ha Hn Hty' Hsz').
    reflexivity.
  - rewrite Hcache, (sub_spec_falsy e "cache") by assumption.
    unfold sub_spec. rewrite Hdb. cbn [truthy py_getitem bind ret].
    apply get_dict_lookup in Hdb. unfold getitem at 1. rewrite Hdb.
    cbn [bind ret].
    rewrite (db_manifest_shaped config application namespace n _ Ha Hn Hty Hsz).
    reflexivity.
  - unfold sub_spec. rewrite Hdb, Hcache. cbn [truthy py_getitem bind ret].
    apply get_dict_lookup in Hdb, Hcache. unfold getitem at 1. rewrite Hdb.
    cbn [bind ret].
    rewrite (db_manifest_shaped config application namespace n _ Ha Hn Hty Hsz).
    cbn [bind ret]. unfold getitem at 1. rewrite Hcache. cbn [bind ret].
    rewrite (cache_manifest_shaped config application namespace n _ Ha Hn Hty' Hsz').
    reflexivity.
Qed.

Lemma generate_environments_shaped (config : ApplicationConfiguration)
    (application namespace : value) (items : list (string * value)) :
  getitem (spec config) "application" = ret application ->
  getitem (metadata config) "namespace" = ret namespace ->
  forall manifests,
  forallb (fun kv => environment_previewable (snd kv)) items = true ->
  generate_environments py_repr config items manifests
  = ret (manifests
         ++ flat_map (manifests_of_environment py_repr application namespace)
              items).
Proof.
  intros Ha Hn. induction items as [|[n e] items IH]; intros manifests H;
    cbn [generate_environments forallb flat_map snd] in *.
  - now rewrite app_nil_r.
  - apply andb_prop in H as [He Hrest].
    rewrite (environment_manifests_shaped config application namespace n e Ha Hn He).
    cbn [bind ret]. rewrite IH by exact Hrest. now rewrite <- app_assoc.
Qed.

End PreviewProofs.

Section PreviewFailures.

Variable py_repr : value -> string.

Lemma get_truthy_lookup (d : dict) (k : string) :
  truthy (get d k VNone) = true -> dict_lookup d k = Some (get d k VNone).
Proof. unfold get. destruct (dict_lookup d k); [reflexivity|discriminate]. Qed.

Lemma not_is_Some_None {A : Type} (o : option A) : ~ is_Some o -> o = None.
Proof. destruct o; [intros H; exfalso; apply H; eauto | reflexivity]. Qed.

Lemma sub_spec_unshaped_cases (v : value) :
  sub_spec_shaped v = false ->
  truthy v = true
  /\ exists x, py_getitem v "type" = raise x
               \/ (exists ty, py_getitem v "type" = ret ty)
                  /\ py_getitem v "size" = raise x.
Proof.
  unfold sub_spec_shaped. destruct (truthy v) eqn:Ht; [|discriminate].
  cbn [negb orb]. intros H. split; [reflexivity|].
  destruct v as [|b|n|x|s|xs|d]; try (eexists; left; reflexivity).
  cbn [py_getitem]. unfold getitem.
  destruct (dict_lookup d "type") as [ty|] eqn:Hty;
    [|eexists; left; reflexivity].
  destruct (dict_lookup d "size") as [sz|] eqn:Hsz.
  - exfalso. apply andb_false_iff in H as [H|H];
      apply bool_decide_eq_false in H; apply H; eauto.
  - eexists. right. split; [now exists ty | reflexivity].
Qed.

Lemma db_manifest_unshaped (config : ApplicationConfiguration)
    (application namespace : value) (n : string) (v : value) :
  getitem (spec config) "application" = ret application ->
  getitem (metadata config) "namespace" = ret namespace ->
  sub_spec_shaped v = false ->
  exists x, db_manifest py_repr config n v = raise x.
Proof.
  intros Ha Hn Hv. unfold db_manifest. rewrite Ha, Hn. cbn [bind ret].
  destruct (sub_spec_unshaped_cases v Hv) as (_ & x & [Hx|[[ty Hty] Hx]]).
  - rewrite Hx. now exists x.
  - rewrite Hty. cbn [bind ret]. rewrite Hx. now exists x.
Qed.

Lemma cache_manifest_unshaped (config : ApplicationConfiguration)
    (application namespace : value) (n : string) (v : value) :
  getitem (spec config) "application" = ret application ->
  getitem (metadata config) "namespace" = ret namespace ->
  sub_spec_shaped v = false ->
  exists x, cache_manifest py_repr config n v = raise x.
Proof.
  intros Ha Hn Hv. unfold cache_manifest. rewrite Ha, Hn. cbn [bind ret].
  destruct (sub_spec_unshaped_cases v Hv) as (_ & x & [Hx|[[ty Hty] Hx]]).
  - rewrite Hx. now exists x.
  - rewrite Hty. cbn [bind ret]. rewrite Hx. now exists x.
Qed.

Lemma environment_manifests_unshaped (config : ApplicationConfiguration)
    (application namespace : value) (n : string) (e : value) :
  getitem (spec config) "application" = ret application ->
  getitem (metadata config) "namespace" = ret namespace ->
  environment_previewable e = false ->
  exists x, environment_manifests py_repr config n e = raise x.
Proof.
  intros Ha Hn Hshape. unfold environment_manifests.
  destruct e as [| | | | | |e]; try (eexists; reflexivity).
  cbn [environment_previewable] in Hshape. cbn [py_get bind ret].
  destruct (sub_spec_shaped (get e "database" VNone)) eqn:Hdb.
  - cbn [andb] in Hshape.
    destruct (sub_spec_unshaped_cases _ Hshape) as [Htc _].
    destruct (cache_manifest_unshaped config application namespace n _
                Ha Hn Hshape) as [x Hx].
    rewrite Htc. cbn [py_getitem]. unfold getitem at 2.
    rewrite (get_truthy_lookup e "cache" Htc). cbn [bind ret]. rewrite Hx.
    cbn [bind ret].
    destruct (if truthy (get e "database" VNone) then _ else _);
      now eexists.
  - destruct (sub_spec_unshaped_cases _ Hdb) as [Htd _].
    destruct (db_manifest_unshaped config application namespace n _
                Ha Hn Hdb) as [x Hx].
    rewrite Htd. cbn [py_getitem]. unfold getitem at 1.
    rewrite (get_truthy_lookup e "database" Htd). cbn [bind ret]. rewrite Hx.
    now exists x.
Qed.

Lemma generate_environments_unshaped (config : ApplicationConfiguration)
    (application namespace : value) (items : list (string * value)) :
  getitem (spec config) "application" = ret application ->
  getitem (metadata config) "namespace" = ret namespace ->
  forall manifests,
  forallb (fun kv => environment_previewable (snd kv)) items = false ->
  exists x, generate_environments py_repr config items manifests = raise x.
Proof.
  intros Ha Hn. induction items as [|[n e] items IH]; intros manifests H;
    cbn [generate_environments forallb snd] in *; [discriminate|].
  destruct (environment_previewable e) eqn:He; cbn [andb] in H.
  - rewrite (environment_manifests_shaped py_repr config application namespace
               n e Ha Hn He). cbn [bind ret]. now apply IH.
  - destruct (environment_manifests_unshaped config application namespace
                n e Ha Hn He) as [x ->]. now exists x.
Qed.

(** A configuration that is not previewable makes [_generate_manifests]
    raise. *)
Lemma generate_manifests_unshaped (config : ApplicationConfiguration) :
  previewable config = false ->
  exists x, _generate_manifests py_repr config = raise x.
Proof.
  unfold previewable, _generate_manifests, web_app_manifest, environments_of.
  unfold getitem at 1.
  destruct (dict_lookup (spec config) "application") as [a|] eqn:Ha;
    [|intros _; eexists; reflexivity].
  unfold getitem at 1.
  destruct (dict_lookup (metadata config) "namespace") as [ns|] eqn:Hn;
    [|intros _; eexists; reflexivity].
  cbn [bind ret app].
  rewrite !bool_decide_eq_true_2 by eauto. cbn [andb].
  destruct (get (spec config) "environments" (VDict [])) as [| | | | | |envs];
    try (intros _; eexists; reflexivity).
  cbn [py_items bind ret]. intros H.
  apply (generate_environments_unshaped config a ns envs); [| |exact H];
    now apply getitem_lookup.
Qed.

End PreviewFailures.

(** ** Preview: the claim *)

(** C5, as the code has it: for every previewable configuration (it has an
    application and a namespace entry, its environments are a mapping of
    mappings, and every non-empty database or cache entry is a mapping
    with a type and a size) preview emits exactly [manifests_per_spec]:
    the application manifest carrying the environment map first, then,
    environment by environment in the map's order, the database instance
    named [{application}-{environment}-db] if the environment has a
    database sub-spec and after it the cache instance named
    [{application}-{environment}-cache] if it has a cache sub-spec; the
    text returned joins their dumps with the document separator.  The
    sequence is a function of the configuration, so two runs agree.  A
    configuration that is not previewable makes preview fail with a 500. *)
Theorem preview_emits_manifests (py_repr yaml_dump : value -> string)
    (config : ApplicationConfiguration) :
  (previewable config = true ->
   exists application namespace envs,
     dict_lookup (spec config) "application" = Some application
     /\ dict_lookup (metadata config) "namespace" = Some namespace
     /\ environments_of config = VDict envs
     /\ _generate_manifests py_repr config
        = ret (manifests_per_spec py_repr application namespace envs)
     /\ preview_configuration py_repr yaml_dump config
        = ret (String.concat yaml_separator
                 (map yaml_dump
                    (manifests_per_spec py_repr application namespace envs))))
  /\ (previewable config = false ->
      exists detail,
        preview_configuration py_repr yaml_dump config
        = raise (HTTPException 500 detail)).
Proof.
  split.
  - intros H. unfold previewable in H.
    apply andb_prop in H as [H Henvs]. apply andb_prop in H as [Ha Hn].
    apply bool_decide_eq_true in Ha, Hn.
    destruct Ha as [a Ha], Hn as [ns Hn].
    destruct (environments_of config) as [| | | | | |envs] eqn:He;
      try discriminate.
    exists a, ns, envs. repeat (split; [assumption || reflexivity|]).
    assert (Hgen : _generate_manifests py_repr config
                   = ret (manifests_per_spec py_repr a ns envs)).
    { unfold _generate_manifests, web_app_manifest.
      unfold environments_of in He. rewrite He.
      rewrite (proj2 (getitem_lookup _ _ _) Ha),
        (proj2 (getitem_lookup _ _ _) Hn).
      cbn [bind ret py_items app].
      rewrite (generate_environments_shaped py_repr config a ns envs)
        by (try apply getitem_lookup; assumption).
      reflexivity. }
    split; [exact Hgen|]. unfold preview_configuration. now rewrite Hgen.
  - intros H.
    destruct (generate_manifests_unshaped py_repr config H) as [x Hx].
    unfold preview_configuration. rewrite Hx. now eexists.
Qed.

(** Two environments, one with a database and the other with a cache:
    exactly three manifests, named after application and environment. *)
Lemma preview_emits_manifests_witness :
  _generate_manifests (fun _ => "") config_database_and_cache
  = ret [application_manifest (VStr "shop") (VStr "team-a")
           (environments_of config_database_and_cache);
         database_instance (fun _ => "") (VStr "shop") (VStr "team-a") "dev"
           [("type", VStr "postgresql"); ("size", VStr "small")];
         cache_instance (fun _ => "") (VStr "shop") (VStr "team-a") "prod"
           [("type", VStr "redis"); ("size", VStr "large")]]
  /\ instance_name (fun _ => "") (VStr "shop") "dev" "db" = "shop-dev-db"
  /\ instance_name (fun _ => "") (VStr "shop") "prod" "cache" = "shop-prod-cache"
  /\ exists text, preview_configuration (fun _ => "") (fun _ => "manifest")
                    config_database_and_cache = ret text.
Proof.
  destruct (proj1 (preview_emits_manifests (fun _ => "") (fun _ => "manifest")
                     config_database_and_cache) eq_refl)
    as (a & ns & envs & Ha & Hn & He & Hgen & Hpre).
  injection Ha as <-. injection Hn as <-. injection He as <-.
  split; [exact Hgen|]. split; [reflexivity|]. split; [reflexivity|].
  eexists. exact Hpre.
Defined.

(** C5 as stated fails: a configuration without an application entry gets
    no manifest at all, preview answers with a 500. *)
Lemma preview_without_application_fails :
  preview_configuration (fun _ => "") (fun _ => "manifest")
    config_no_application
  = raise (HTTPException 500 "Failed to generate preview: 'application'").
Proof. reflexivity. Qed.

(** ** Templates *)

Lemma apply_web_application (files : template_files)
    (app_name namespace : string) :
  apply_template files "web-application" app_name namespace
  = ret (web_application_for app_name namespace).
Proof. reflexivity. Qed.

(** C6: whatever the template directory holds,
    [apply_template "web-application" "foo" "ns1"] returns the configuration
    named [foo-config] in namespace [ns1], labelled with app [foo] and
    template [web-application], whose spec has the development environment
    with 1 replica and the production environment with 3, each with the
    template's resource requests and limits.  It is computed without a
    request to the cluster: [apply_template] does not run in the store
    monad. *)
Theorem apply_template_web_application (files : template_files) :
  apply_template files "web-application" "foo" "ns1"
  = ret {| apiVersion := "platform.idp/v1alpha1";
           kind := "ApplicationConfiguration";
           metadata :=
             [("name", VStr "foo-config");
              ("namespace", VStr "ns1");
              ("labels", VDict [("app", VStr "foo");
                                ("template", VStr "web-application")])];
           spec :=
             [("application", VStr "foo");
              ("environments", VDict
                 [("development", VDict
                     [("replicas", VInt 1);
                      ("resources", VDict
                         [("requests", VDict [("cpu", VStr "100m");
                                              ("memory", VStr "128Mi")]);
                          ("limits", VDict [("cpu", VStr "500m");
                                            ("memory", VStr "512Mi")])])]);
                  ("production", VDict
                     [("replicas", VInt 3);
                      ("resources", VDict
                         [("requests", VDict [("cpu", VStr "500m");
                                              ("memory", VStr "512Mi")]);
                          ("limits", VDict [("cpu", VStr "1000m");
                                            ("memory", VStr "1Gi")])])])])] |}.
Proof. exact (apply_web_application files "foo" "ns1"). Qed.

(** A name no template has is refused with a 404. *)
Lemma apply_template_unknown :
  apply_template [] "batch-job" "foo" "ns1"
  = raise (HTTPException 404 "Template batch-job not found").
Proof. reflexivity. Qed.

(** ** Delete *)

Section DeleteProofs.

Context {S : Type}.
Variable api : CustomObjectsApi S.
Variable git_repo : option string.

Lemma delete_configuration_answer (name namespace : string) (w : World S) :
  fst (delete_configuration api git_repo name namespace w)
  = match fst (delete_namespaced_custom_object api namespace name (cluster w)) with
    | inr _ => ret tt
    | inl (ApiException status reason) =>
        if bool_decide (status = Some 404) then ret tt
        else raise (HTTPException 500
                      ("Failed to delete configuration: " +:+ reason))
    | inl e => raise e
    end.
Proof.
  unfold delete_configuration, except_ApiException, mbind, send,
    _remove_from_git.
  destruct (delete_namespaced_custom_object api namespace name (cluster w))
    as [[e|[]] c]; cbn [fst].
  - destruct e as [| | |status reason| | |]; try reflexivity.
    destruct (bool_decide (status = Some 404)); reflexivity.
  - destruct git_repo; reflexivity.
Qed.

(** One request goes to the API, whatever it answers. *)
Lemma delete_configuration_calls (name namespace : string) (w : World S) :
  calls (snd (delete_configuration api git_repo name namespace w))
  = calls w ++ [DeleteCall namespace name].
Proof.
  unfold delete_configuration, except_ApiException, mbind, send,
    _remove_from_git.
  destruct (delete_namespaced_custom_object api namespace name (cluster w))
    as [[e|[]] c].
  - destruct e as [| | |status reason| | |]; try reflexivity.
    destruct (negb (bool_decide (status = Some 404))); reflexivity.
  - destruct git_repo; reflexivity.
Qed.

End DeleteProofs.

Lemma mem_delete_absent (c : mem_cluster) (name namespace : string) :
  c !! (namespace, name) = None ->
  delete_namespaced_custom_object mem_api namespace name c
  = (raise not_found, c).
Proof. intros H. cbn. now rewrite H. Qed.

Lemma mem_delete_present (c : mem_cluster) (name namespace : string)
    (x : ApplicationConfiguration) :
  c !! (namespace, name) = Some x ->
  delete_namespaced_custom_object mem_api namespace name c
  = (ret tt, delete (namespace, name) c).
Proof. intros H. cbn. now rewrite H. Qed.

(** C7: delete is idempotent.  Against any custom-resource API: when the
    API deletes the resource, and also when it answers with the not-found
    fault (status 404), [delete_configuration] returns without error; a
    fault of the API with any other status is raised as a service error
    (status 500 with the fault's text), and any other exception passes
    through.  Against a cluster that answers not-found for what it does not
    hold, deleting an identity succeeds whether or not it is there, leaves
    it absent, and deleting it a second time succeeds again and changes
    nothing. *)
Theorem delete_idempotent :
  (forall (S : Type) (api : CustomObjectsApi S) (git_repo : option string)
          (name namespace : string) (w : World S),
     (fst (delete_namespaced_custom_object api namespace name (cluster w))
      = ret tt ->
      fst (delete_configuration api git_repo name namespace w) = ret tt)
     /\ (forall reason,
           fst (delete_namespaced_custom_object api namespace name (cluster w))
           = raise (ApiException (Some 404) reason) ->
           fst (delete_configuration api git_repo name namespace w) = ret tt)
     /\ (forall status reason,
           fst (delete_namespaced_custom_object api namespace name (cluster w))
           = raise (ApiException status reason) ->
           status <> Some 404 ->
           fst (delete_configuration api git_repo name namespace w)
           = raise (HTTPException 500
                      ("Failed to delete configuration: " +:+ reason)))
     /\ (forall e,
           fst (delete_namespaced_custom_object api namespace name (cluster w))
           = raise e ->
           (forall status reason, e <> ApiException status reason) ->
           fst (delete_configuration api git_repo name namespace w) = raise e))
  /\ (forall (git_repo : option string) (name namespace : string)
             (w : World mem_cluster),
        fst (delete_configuration mem_api git_repo name namespace w) = ret tt
        /\ cluster (snd (delete_configuration mem_api git_repo name namespace w))
           !! (namespace, name) = None
        /\ fst (delete_configuration mem_api git_repo name namespace
                  (snd (delete_configuration mem_api git_repo name namespace w)))
           = ret tt
        /\ cluster
             (snd (delete_configuration mem_api git_repo name namespace
                     (snd (delete_configuration mem_api git_repo name namespace w))))
           = cluster (snd (delete_configuration mem_api git_repo name namespace w))).
Proof.
  split.
  - intros S api git_repo name namespace w.
    rewrite (delete_configuration_answer api git_repo name namespace w).
    split; [|split; [|split]].
    + now intros ->.
    + intros reason ->. reflexivity.
    + intros status reason -> Hs. unfold raise.
      now rewrite bool_decide_eq_false_2.
    + intros e -> He. destruct e; try reflexivity. now destruct (He status reason).
  - intros git_repo name namespace w.
    assert (Hfirst :
      fst (delete_configuration mem_api git_repo name namespace w) = ret tt
      /\ cluster (snd (delete_configuration mem_api git_repo name namespace w))
         !! (namespace, name) = None).
    { unfold delete_configuration, except_ApiException, mbind, send,
        _remove_from_git.
      destruct (cluster w !! (namespace, name)) as [x|] eqn:Hx.
      - rewrite (mem_delete_present _ _ _ x Hx).
        destruct git_repo; cbn; (split; [reflexivity|apply lookup_delete_eq]).
      - rewrite (mem_delete_absent _ _ _ Hx). cbn. now split. }
    destruct Hfirst as [Hr Hc]. split; [exact Hr|]. split; [exact Hc|].
    generalize dependent (snd (delete_configuration mem_api git_repo name namespace w)).
    intros w1 Hc. unfold delete_configuration, except_ApiException, mbind, send,
      _remove_from_git.
    rewrite (mem_delete_absent _ _ _ Hc). cbn. now split.
Qed.

Lemma delete_idempotent_witness :
  fst (delete_configuration mem_api None "shop-config" "team-a"
         (world_of one_config_cluster)) = ret tt
  /\ fst (delete_configuration mem_api None "shop-config" "team-a"
            (snd (delete_configuration mem_api None "shop-config" "team-a"
                    (world_of one_config_cluster)))) = ret tt
  /\ fst (delete_configuration unavailable_api None "shop-config" "team-a"
            (world_of tt))
     = raise (HTTPException 500
                "Failed to delete configuration: (503) Reason: Service Unavailable").
Proof.
  destruct delete_idempotent as [Hany Hmem].
  destruct (Hmem None "shop-config" "team-a" (world_of one_config_cluster))
    as (H1 & _ & H2 & _).
  destruct (Hany unit unavailable_api None "shop-config" "team-a" (world_of tt))
    as (_ & _ & H500 & _).
  split; [exact H1|]. split; [exact H2|].
  apply (H500 (Some 503) "(503) Reason: Service Unavailable" eq_refl).
  discriminate.
Defined.

(** ** Create and update: what reaches the store *)

Lemma dict_lookup_setitem_eq (d : dict) (k : string) (v : value) :
  dict_lookup (setitem d k v) k = Some v.
Proof.
  induction d as [|[k' v'] d IH]; simpl.
  - now rewrite String.eqb_refl.
  - destruct (String.eqb k' k) eqn:E; simpl; now rewrite E.
Qed.

Lemma dict_lookup_setitem_ne (d : dict) (k k' : string) (v : value) :
  k <> k' -> dict_lookup (setitem d k v) k' = dict_lookup d k'.
Proof.
  intros Hne. induction d as [|[k0 v0] d IH]; simpl.
  - now rewrite (proj2 (String.eqb_neq k k') Hne).
  - destruct (String.eqb k0 k) eqn:E; simpl; [|now rewrite IH].
    apply String.eqb_eq in E. subst k0.
    now rewrite (proj2 (String.eqb_neq k k') Hne).
Qed.

Lemma setitem_setitem (d : dict) (k : string) (v v' : value) :
  setitem (setitem d k v) k v' = setitem d k v'.
Proof.
  induction d as [|[k0 v0] d IH]; simpl.
  - now rewrite String.eqb_refl.
  - destruct (String.eqb k0 k) eqn:E; simpl; rewrite E; [reflexivity|].
    now rewrite IH.
Qed.

Lemma dict_lookup_app (d d' : dict) (k : string) :
  dict_lookup (d ++ d') k
  = match dict_lookup d k with
    | Some v => Some v
    | None => dict_lookup d' k
    end.
Proof.
  induction d as [|[k0 v0] d IH]; simpl; [reflexivity|].
  now destruct (String.eqb k0 k).
Qed.

Lemma dict_lookup_setdefault_ne (d : dict) (k k' : string) (v : value) :
  k <> k' -> dict_lookup (setdefault d k v) k' = dict_lookup d k'.
Proof.
  intros Hne. unfold setdefault. destruct (dict_lookup d k); [reflexivity|].
  rewrite dict_lookup_app. simpl.
  rewrite (proj2 (String.eqb_neq k k') Hne). now destruct (dict_lookup d k').
Qed.

Lemma dict_lookup_setdefault_eq (d : dict) (k : string) (v : value) :
  dict_lookup (setdefault d k v) k
  = Some (match dict_lookup d k with Some x => x | None => v end).
Proof.
  unfold setdefault. destruct (dict_lookup d k) eqn:E; [exact E|].
  rewrite dict_lookup_app, E. simpl. now rewrite String.eqb_refl.
Qed.

Lemma with_annotations_frame (config : ApplicationConfiguration) (a : dict)
    (k : string) :
  k <> "annotations" ->
  dict_lookup (metadata (with_annotations config a)) k
  = dict_lookup (metadata config) k.
Proof.
  intros Hne. unfold with_annotations. cbn [metadata set_metadata].
  rewrite dict_lookup_setitem_ne by congruence.
  now rewrite dict_lookup_setdefault_ne by congruence.
Qed.

Lemma with_annotations_lookup (config : ApplicationConfiguration) (a : dict) :
  dict_lookup (metadata (with_annotations config a)) "annotations"
  = Some (VDict a).
Proof. unfold with_annotations. apply dict_lookup_setitem_eq. Qed.

Lemma with_annotations_again (config : ApplicationConfiguration)
    (a a' : dict) :
  set_metadata (with_annotations config a)
    (setitem (metadata (with_annotations config a)) "annotations" (VDict a'))
  = with_annotations config a'.
Proof.
  unfold with_annotations, set_metadata. cbn [metadata apiVersion kind spec].
  now rewrite setitem_setitem.
Qed.

Section StoreProofs.

Context {S : Type}.
Variable api : CustomObjectsApi S.
Variable utcnow_isoformat : nat -> string.
Variable parse_configuration : value -> result ApplicationConfiguration.
Variable git_repo : option string.

(** Stamping a configuration whose annotations are the mapping [a]. *)
Lemma stamp_annotations (key : string) (config : ApplicationConfiguration)
    (a : dict) (w : World S) :
  dict_lookup (metadata config) "annotations" = Some (VDict a) ->
  stamp utcnow_isoformat key config w
  = (ret (set_metadata config
            (setitem (metadata config) "annotations"
               (VDict (setitem a key (VStr (utcnow_isoformat (clock_reads w))))))),
     tick w).
Proof.
  intros Ha. unfold stamp, mbind, utcnow, lift, getitem. rewrite Ha.
  reflexivity.
Qed.

(** Stamping raises on annotations that are no mapping; the clock has been
    read, nothing has been sent. *)
Lemma stamp_no_mapping (key : string) (config : ApplicationConfiguration)
    (v : value) (w : World S) :
  dict_lookup (metadata config) "annotations" = Some v ->
  (forall a, v <> VDict a) ->
  exists e, stamp utcnow_isoformat key config w = (raise e, tick w).
Proof.
  intros Hv Hnd. unfold stamp, mbind, utcnow, lift, getitem. rewrite Hv.
  destruct v as [| | | | | |a]; try (eexists; reflexivity).
  now destruct (Hnd a).
Qed.

End StoreProofs.

Section StoreRequests.

Context {S : Type}.
Variable api : CustomObjectsApi S.
Variable utcnow_isoformat : nat -> string.
Variable parse_configuration : value -> result ApplicationConfiguration.
Variable git_repo : option string.

(** The first stamp of an operation, after its [setdefault]. *)
Lemma stamp_after_setdefault (key : string)
    (config : ApplicationConfiguration) (w : World S) :
  match annotations_dict (metadata config) with
  | Some a =>
      stamp utcnow_isoformat key
        (set_metadata config
           (setdefault (metadata config) "annotations" (VDict []))) w
      = (ret (with_annotations config
                (setitem a key (VStr (utcnow_isoformat (clock_reads w))))),
         tick w)
  | None =>
      exists e,
        stamp utcnow_isoformat key
          (set_metadata config
             (setdefault (metadata config) "annotations" (VDict []))) w
        = (raise e, tick w)
  end.
Proof.
  unfold annotations_dict.
  destruct (dict_lookup (metadata config) "annotations") as [v|] eqn:Hv.
  - assert (Hm : setdefault (metadata config) "annotations" (VDict [])
                 = metadata config) by (unfold setdefault; now rewrite Hv).
    destruct v as [| | | | | |a]; cbv beta iota;
      try (rewrite Hm; eapply (stamp_no_mapping utcnow_isoformat key);
           [cbn [metadata set_metadata]; exact Hv | discriminate]).
    rewrite (stamp_annotations utcnow_isoformat key _ a w)
      by (cbn [metadata set_metadata]; rewrite Hm; exact Hv).
    reflexivity.
  - cbv beta iota. rewrite (stamp_annotations utcnow_isoformat key _ [] w).
    + reflexivity.
    + cbn [metadata set_metadata]. rewrite dict_lookup_setdefault_eq.
      now rewrite Hv.
Qed.

Lemma update_configuration_calls (config : ApplicationConfiguration)
    (w : World S) :
  calls (snd (update_configuration api utcnow_isoformat parse_configuration
                git_repo config w))
  = calls w ++ update_request utcnow_isoformat config w.
Proof.
  unfold update_configuration, update_request, except_ApiException, mbind.
  pose proof (stamp_after_setdefault "lastModified" config w) as Hs.
  destruct (annotations_dict (metadata config)) as [a|].
  - rewrite Hs. unfold lift, getitem. unfold ret at 1. cbv beta iota.
    rewrite !with_annotations_frame by discriminate.
    destruct (dict_lookup (metadata config) "namespace") as [ns|];
      [|cbn; now rewrite app_nil_r].
    destruct (dict_lookup (metadata config) "name") as [n|];
      [|cbn; now rewrite app_nil_r].
    unfold send, _sync_to_git, mret, mraise, ret.
    cbn [cluster tick calls clock_reads].
    destruct (patch_namespaced_custom_object api ns n _ (cluster w))
      as [[e|stored] c].
    + destruct e; reflexivity.
    + destruct git_repo; destruct (parse_configuration stored) as [e|x];
        try destruct e; reflexivity.
  - destruct Hs as [e ->]. destruct e; cbn; now rewrite app_nil_r.
Qed.

Lemma create_configuration_calls (config : ApplicationConfiguration)
    (w : World S) :
  calls (snd (create_configuration api utcnow_isoformat parse_configuration
                git_repo config w))
  = calls w ++ create_request utcnow_isoformat config w.
Proof.
  unfold create_configuration, create_request, except_ApiException, mbind.
  pose proof (stamp_after_setdefault "created" config w) as Hs.
  destruct (annotations_dict (metadata config)) as [a|].
  - rewrite Hs. unfold ret at 1. cbv beta iota.
    rewrite (stamp_annotations utcnow_isoformat "lastModified" _ _ (tick w)
               (with_annotations_lookup config _)).
    rewrite with_annotations_again.
    unfold lift, getitem. unfold ret at 1. cbv beta iota.
    rewrite !with_annotations_frame by discriminate.
    destruct (dict_lookup (metadata config) "namespace") as [ns|];
      [|cbn; now rewrite app_nil_r].
    unfold send, _sync_to_git, mret, mraise, ret.
    cbn [cluster tick calls clock_reads].
    destruct (create_namespaced_custom_object api ns _ (cluster w))
      as [[e|stored] c].
    + destruct e; reflexivity.
    + destruct git_repo; destruct (parse_configuration stored) as [e|x];
        try destruct e; reflexivity.
  - destruct Hs as [e ->]. destruct e; cbn; now rewrite app_nil_r.
Qed.

End StoreRequests.

Lemma stamps_only_lastModified (config : ApplicationConfiguration) (a : dict)
    (t : string) :
  annotations_dict (metadata config) = Some a ->
  stamps_only [("lastModified", t)] config
    (with_annotations config (setitem a "lastModified" (VStr t))).
Proof.
  intros Ha. unfold stamps_only. repeat (split; [reflexivity|]).
  split; [intros k Hk; now apply with_annotations_frame|].
  exists a, (setitem a "lastModified" (VStr t)).
  split; [exact Ha|]. split; [apply with_annotations_lookup|]. split.
  - intros key t' [[= <- <-]|[]]. apply dict_lookup_setitem_eq.
  - intros key Hkey. apply dict_lookup_setitem_ne. simpl in Hkey. tauto.
Qed.

Lemma stamps_only_created (config : ApplicationConfiguration) (a : dict)
    (t0 t1 : string) :
  annotations_dict (metadata config) = Some a ->
  stamps_only [("created", t0); ("lastModified", t1)] config
    (with_annotations config
       (setitem (setitem a "created" (VStr t0)) "lastModified" (VStr t1))).
Proof.
  intros Ha. unfold stamps_only. repeat (split; [reflexivity|]).
  split; [intros k Hk; now apply with_annotations_frame|].
  exists a, (setitem (setitem a "created" (VStr t0)) "lastModified" (VStr t1)).
  split; [exact Ha|]. split; [apply with_annotations_lookup|]. split.
  - intros key t' [[= <- <-]|[[= <- <-]|[]]].
    + rewrite dict_lookup_setitem_ne by discriminate.
      apply dict_lookup_setitem_eq.
    + apply dict_lookup_setitem_eq.
  - intros key Hkey. simpl in Hkey.
    rewrite !dict_lookup_setitem_ne by tauto. reflexivity.
Qed.

(** ** Create and update: the claims *)

(** C9: before it sends anything, [create_configuration] writes the clock's
    reading into the [created] and then the [lastModified] annotation, and
    [update_configuration] into [lastModified] alone.  What either sends, if
    it sends, is one request whose body is the configuration it was given
    but for these annotation entries: same [apiVersion], [kind] and [spec],
    the same metadata entries besides [annotations], and the same
    annotations besides the stamped ones, so that an update passes an
    existing [created] on untouched.  The request is sent whenever the
    annotations are absent or a mapping and the metadata have the
    namespace (and, to update, the name). *)
Theorem stamps_before_persisting (S : Type) (api : CustomObjectsApi S)
    (utcnow_isoformat : nat -> string)
    (parse_configuration : value -> result ApplicationConfiguration)
    (git_repo : option string)
    (config : ApplicationConfiguration) (w : World S) :
  (exists sent,
     calls (snd (create_configuration api utcnow_isoformat parse_configuration
                   git_repo config w)) = calls w ++ sent
     /\ (forall call, In call sent ->
           exists namespace body,
             call = CreateCall namespace body
             /\ dict_lookup (metadata config) "namespace" = Some namespace
             /\ stamps_only
                  [("created", utcnow_isoformat (clock_reads w));
                   ("lastModified",
                    utcnow_isoformat (Datatypes.S (clock_reads w)))]
                  config body)
     /\ (forall a namespace,
           annotations_dict (metadata config) = Some a ->
           dict_lookup (metadata config) "namespace" = Some namespace ->
           exists body, sent = [CreateCall namespace body]))
  /\ (exists sent,
        calls (snd (update_configuration api utcnow_isoformat
                      parse_configuration git_repo config w)) = calls w ++ sent
        /\ (forall call, In call sent ->
              exists namespace name body,
                call = PatchCall namespace name body
                /\ dict_lookup (metadata config) "namespace" = Some namespace
                /\ dict_lookup (metadata config) "name" = Some name
                /\ stamps_only
                     [("lastModified", utcnow_isoformat (clock_reads w))]
                     config body)
        /\ (forall a namespace name,
              annotations_dict (metadata config) = Some a ->
              dict_lookup (metadata config) "namespace" = Some namespace ->
              dict_lookup (metadata config) "name" = Some name ->
              exists body, sent = [PatchCall namespace name body])).
Proof.
  split.
  - exists (create_request utcnow_isoformat config w).
    split; [apply create_configuration_calls|]. unfold create_request.
    destruct (annotations_dict (metadata config)) as [a|] eqn:Ha;
      [|split; [intros call []|discriminate]].
    destruct (dict_lookup (metadata config) "namespace") as [ns|];
      [|split; [intros call []|discriminate]].
    split.
    + intros call [<-|[]]. eexists _, _. split; [reflexivity|].
      split; [reflexivity|]. now apply stamps_only_created.
    + intros a' ns' _ [= <-]. now eexists.
  - exists (update_request utcnow_isoformat config w).
    split; [apply update_configuration_calls|]. unfold update_request.
    destruct (annotations_dict (metadata config)) as [a|] eqn:Ha;
      [|split; [intros call []|discriminate]].
    destruct (dict_lookup (metadata config) "namespace") as [ns|];
      [|split; [intros call []|discriminate]].
    destruct (dict_lookup (metadata config) "name") as [n|];
      [|split; [intros call []|discriminate]].
    split.
    + intros call [<-|[]]. eexists _, _, _. split; [reflexivity|].
      split; [reflexivity|]. split; [reflexivity|].
      now apply stamps_only_lastModified.
    + intros a' ns' n' _ [= <-] [= <-]. now eexists.
Qed.

(** An update of a configuration created in January: the request carries
    the old [created] and [owner] annotations and the new [lastModified]. *)
Lemma stamps_before_persisting_witness :
  exists body a',
    calls (snd (update_configuration mem_api example_clock parse_stored None
                  config_created_before (world_of one_config_cluster)))
    = [PatchCall (VStr "team-a") (VStr "shop-config") body]
    /\ spec body = spec config_created_before
    /\ dict_lookup (metadata body) "annotations" = Some (VDict a')
    /\ dict_lookup a' "created" = Some (VStr "2024-01-15T08:30:00.000000")
    /\ dict_lookup a' "owner" = Some (VStr "team-a")
    /\ dict_lookup a' "lastModified" = Some (VStr "2024-06-01T12:00:00.000001").
Proof.
  destruct (stamps_before_persisting mem_cluster mem_api example_clock
              parse_stored None config_created_before
              (world_of one_config_cluster))
    as (_ & sent & Hcalls & Hframe & Hsent).
  destruct (Hsent _ (VStr "team-a") (VStr "shop-config")
              eq_refl eq_refl eq_refl) as [body ->].
  destruct (Hframe _ (or_introl eq_refl))
    as (ns & n & body' & [= <- <- <-] & _ & _ & _ & _ & Hspec & _
        & a & a' & [= <-] & Hann & Hstamp & Hrest).
  exists body, a'. split; [exact Hcalls|]. split; [exact Hspec|].
  split; [exact Hann|].
  split; [rewrite Hrest by (simpl; intuition discriminate); reflexivity|].
  split; [rewrite Hrest by (simpl; intuition discriminate); reflexivity|].
  apply Hstamp. now left.
Defined.

(** ** The PUT route *)

(** C10: the PUT route hands [update_configuration] the body with its
    metadata name and namespace overwritten by the path's, every other
    field as it came, whatever name and namespace the body carried.  So a
    request it makes of the store is addressed to the path's namespace and
    name and carries a body with that same identity. *)
Theorem put_configuration_identity (S : Type) (api : CustomObjectsApi S)
    (utcnow_isoformat : nat -> string)
    (parse_configuration : value -> result ApplicationConfiguration)
    (git_repo : option string)
    (name namespace : string)
    (config : ApplicationConfiguration) (w : World S) :
  Routes.update_configuration api utcnow_isoformat parse_configuration git_repo
    name namespace config w
  = update_configuration api utcnow_isoformat parse_configuration git_repo
      (with_identity name namespace config) w
  /\ dict_lookup (metadata (with_identity name namespace config)) "name"
     = Some (VStr name)
  /\ dict_lookup (metadata (with_identity name namespace config)) "namespace"
     = Some (VStr namespace)
  /\ (forall k, k <> "name" -> k <> "namespace" ->
        dict_lookup (metadata (with_identity name namespace config)) k
        = dict_lookup (metadata config) k)
  /\ spec (with_identity name namespace config) = spec config
  /\ exists sent,
       calls (snd (Routes.update_configuration api utcnow_isoformat parse_configuration
                     git_repo name namespace config w)) = calls w ++ sent
       /\ forall call, In call sent ->
            exists body,
              call = PatchCall (VStr namespace) (VStr name) body
              /\ dict_lookup (metadata body) "name" = Some (VStr name)
              /\ dict_lookup (metadata body) "namespace" = Some (VStr namespace).
Proof.
  assert (Hname : dict_lookup (metadata (with_identity name namespace config))
                    "name" = Some (VStr name)).
  { unfold with_identity. cbn [metadata set_metadata].
    rewrite dict_lookup_setitem_ne by discriminate.
    apply dict_lookup_setitem_eq. }
  assert (Hns : dict_lookup (metadata (with_identity name namespace config))
                  "namespace" = Some (VStr namespace)).
  { unfold with_identity. cbn [metadata set_metadata].
    apply dict_lookup_setitem_eq. }
  split; [reflexivity|]. split; [exact Hname|]. split; [exact Hns|].
  split.
  { intros k Hk1 Hk2. unfold with_identity. cbn [metadata set_metadata].
    now rewrite !dict_lookup_setitem_ne by congruence. }
  split; [reflexivity|].
  exists (update_request utcnow_isoformat (with_identity name namespace config) w).
  split; [apply update_configuration_calls|].
  unfold update_request. rewrite Hname, Hns.
  destruct (annotations_dict (metadata (with_identity name namespace config)))
    as [a|]; [|intros call []].
  intros call [<-|[]]. eexists. split; [reflexivity|].
  rewrite !with_annotations_frame by discriminate. now split.
Qed.

(** A body naming [billing-config] in [team-b], put to
    [/configurations/team-a/shop-config]: the store is asked to patch
    [shop-config] in [team-a], with a body that says so. *)
Lemma put_configuration_identity_example :
  exists body,
    calls (snd (Routes.update_configuration mem_api example_clock parse_stored None
                  "shop-config" "team-a" config_claiming_other
                  (world_of one_config_cluster)))
    = [PatchCall (VStr "team-a") (VStr "shop-config") body]
    /\ dict_lookup (metadata body) "name" = Some (VStr "shop-config")
    /\ dict_lookup (metadata body) "namespace" = Some (VStr "team-a")
    /\ dict_lookup (metadata body) "labels"
       = Some (VDict [("app", VStr "shop")]).
Proof. eexists. repeat split. Qed.

Lemma put_configuration_identity_witness :
  dict_lookup
    (metadata (with_identity "shop-config" "team-a" config_claiming_other))
    "name" = Some (VStr "shop-config")
  /\ dict_lookup
       (metadata (with_identity "shop-config" "team-a" config_claiming_other))
       "namespace" = Some (VStr "team-a")
  /\ dict_lookup
       (metadata (with_identity "shop-config" "team-a" config_claiming_other))
       "labels" = Some (VDict [("app", VStr "shop")]).
Proof.
  destruct (put_configuration_identity mem_cluster mem_api example_clock
              parse_stored None "shop-config" "team-a" config_claiming_other
              (world_of one_config_cluster))
    as (_ & Hname & Hns & Hframe & _).
  split; [exact Hname|]. split; [exact Hns|].
  rewrite (Hframe "labels") by discriminate. reflexivity.
Defined.

(** ** Polling for a job's result *)

Section PollingProofs.

Variable net : Network.
Hypothesis latency_nonneg : forall i, 0 <= get_latency net i.
Hypothesis sleep_extra_nonneg : forall i, 0 <= sleep_extra net i.

Variable job_id : value.
Variable start_time max_wait : Z.

Lemma time_at_step (w0 : NetWorld) (i : nat) :
  time_at net w0 i + seconds 5 <= time_at net w0 (Datatypes.S i).
Proof.
  cbn [time_at].
  pose proof (latency_nonneg (gets w0 + i)).
  pose proof (sleep_extra_nonneg (sleeps w0 + i)). lia.
Qed.

Lemma time_at_lower (w0 : NetWorld) (i : nat) :
  now w0 + seconds 5 * Z.of_nat i <= time_at net w0 i.
Proof.
  induction i as [|i IH]; [cbn [time_at]; lia|].
  pose proof (time_at_step w0 i). lia.
Qed.

Lemma time_at_mono (w0 : NetWorld) (i j : nat) :
  (i <= j)%nat -> time_at net w0 i <= time_at net w0 j.
Proof.
  induction 1 as [|j _ IH]; [lia|].
  pose proof (time_at_step w0 j). unfold seconds in *. lia.
Qed.

Lemma world_at_0 (w0 : NetWorld) : world_at net w0 0 = w0.
Proof.
  destruct w0 as [t g s]. unfold world_at. cbn [time_at now gets sleeps].
  now rewrite !Nat.add_0_r.
Qed.

(** One turn that is answered "not found" and sleeps. *)
Lemma world_at_next (w0 : NetWorld) (i : nat) :
  time_sleep net 5 (snd (session_get net (world_at net w0 i)))
  = world_at net w0 (Datatypes.S i).
Proof.
  unfold time_sleep, session_get, world_at.
  cbn [snd now gets sleeps time_at].
  now rewrite !Nat.add_succ_r.
Qed.

(** A turn of the loop, by what the endpoint answers. *)
Lemma wait_loop_turn (fuel : nat) (w : NetWorld) :
  wait_loop net (Datatypes.S fuel) job_id start_time max_wait w
  = if now w - start_time <? seconds max_wait then
      match get_outcome net (gets w) with
      | RequestFailed msg =>
          Some (ret (failure ("Error checking job status: " +:+ msg)),
                snd (session_get net w))
      | Response status_code json =>
          if status_code =? 200 then
            match json with
            | inl (RequestException msg) =>
                Some (ret (failure ("Error checking job status: " +:+ msg)),
                      snd (session_get net w))
            | inl e => Some (raise e, snd (session_get net w))
            | inr job_result =>
                Some
                  (let* result := py_get job_result "result" (VDict []) in
                   let* logs := py_get job_result "logs" (VList []) in
                   ret [("success", VBool true);
                        ("job_id", job_id);
                        ("result", result);
                        ("logs", logs)],
                   snd (session_get net w))
            end
          else if status_code =? 404 then
            wait_loop net fuel job_id start_time max_wait
              (time_sleep net 5 (snd (session_get net w)))
          else
            Some (ret (failure ("Job failed with status "
                                +:+ pretty status_code)),
                  snd (session_get net w))
      end
    else Some (ret (failure "Job timeout"), w).
Proof. reflexivity. Qed.

(** While the endpoint answers "not found" in time, the loop goes on. *)
Lemma wait_loop_skip (w0 : NetWorld) (k : nat) :
  forall fuel,
  (forall i, (i < k)%nat ->
     is_not_found (get_outcome net (gets w0 + i)) = true
     /\ time_at net w0 i - start_time < seconds max_wait) ->
  wait_loop net (k + fuel) job_id start_time max_wait w0
  = wait_loop net fuel job_id start_time max_wait (world_at net w0 k).
Proof.
  induction k as [|k IH]; intros fuel H.
  - now rewrite world_at_0.
  - replace (Datatypes.S k + fuel)%nat with (k + Datatypes.S fuel)%nat by lia.
    rewrite IH by (intros i Hi; apply H; lia).
    rewrite wait_loop_turn.
    destruct (H k (Nat.lt_succ_diag_r k)) as [H404 Htime].
    change (now (world_at net w0 k)) with (time_at net w0 k).
    rewrite (proj2 (Z.ltb_lt _ _) Htime).
    change (gets (world_at net w0 k)) with (gets w0 + k)%nat.
    destruct (get_outcome net (gets w0 + k)) as [code json|msg];
      [|discriminate].
    cbn [is_not_found] in H404. apply Z.eqb_eq in H404. subst code.
    cbn [Z.eqb Pos.eqb]. now rewrite world_at_next.
Qed.

(** With [enough_fuel] the loop always comes to an end. *)
Lemma wait_loop_terminates (fuel : nat) :
  forall w,
  start_time + seconds max_wait - now w <= seconds 5 * Z.of_nat fuel ->
  exists r w', wait_loop net (Datatypes.S fuel) job_id start_time max_wait w
               = Some (r, w').
Proof.
  induction fuel as [|fuel IH]; intros w Hrem; rewrite wait_loop_turn.
  - destruct (now w - start_time <? seconds max_wait) eqn:Ht;
      [apply Z.ltb_lt in Ht; lia | now eexists _, _].
  - destruct (now w - start_time <? seconds max_wait) eqn:Ht;
      [|now eexists _, _].
    destruct (get_outcome net (gets w)) as [code json|msg];
      [|now eexists _, _].
    destruct (code =? 200); [destruct json as [[]|]; now eexists _, _|].
    destruct (code =? 404); [|now eexists _, _].
    apply IH. unfold time_sleep, session_get. cbn [snd now gets sleeps].
    pose proof (latency_nonneg (gets w)).
    pose proof (sleep_extra_nonneg (sleeps w)). unfold seconds in *. lia.
Qed.

End PollingProofs.

Section PollingTimeout.

Variable net : Network.
Hypothesis latency_nonneg : forall i, 0 <= get_latency net i.
Hypothesis sleep_extra_nonneg : forall i, 0 <= sleep_extra net i.

Variable job_id : value.
Variable start_time max_wait : Z.

Lemma time_at_shift (w : NetWorld) (i : nat) :
  time_at net (world_at net w 1) i = time_at net w (Datatypes.S i).
Proof.
  induction i as [|i IH]; [reflexivity|].
  cbn [time_at] in *. rewrite IH. cbn [world_at gets sleeps].
  replace (gets w + 1 + i)%nat with (gets w + Datatypes.S i)%nat by lia.
  replace (sleeps w + 1 + i)%nat with (sleeps w + Datatypes.S i)%nat by lia.
  reflexivity.
Qed.

Lemma world_at_shift (w : NetWorld) (k : nat) :
  world_at net (world_at net w 1) k = world_at net w (Datatypes.S k).
Proof.
  unfold world_at at 1. rewrite time_at_shift. unfold world_at.
  cbn [gets sleeps]. f_equal; lia.
Qed.

(** If every request made in time is answered "not found", the loop ends
    on its test, with the timeout failure. *)
Lemma wait_loop_timeout (fuel : nat) :
  forall w,
  start_time + seconds max_wait - now w <= seconds 5 * Z.of_nat fuel ->
  (forall i, time_at net w i - start_time < seconds max_wait ->
             is_not_found (get_outcome net (gets w + i)) = true) ->
  exists k,
    wait_loop net (Datatypes.S fuel) job_id start_time max_wait w
    = Some (ret (failure "Job timeout"), world_at net w k)
    /\ seconds max_wait <= time_at net w k - start_time.
Proof.
  induction fuel as [|fuel IH]; intros w Hrem H404; rewrite wait_loop_turn.
  - destruct (now w - start_time <? seconds max_wait) eqn:Ht;
      [apply Z.ltb_lt in Ht; lia|].
    apply Z.ltb_ge in Ht. exists 0%nat. now rewrite world_at_0.
  - destruct (now w - start_time <? seconds max_wait) eqn:Ht.
    + apply Z.ltb_lt in Ht. pose proof (H404 0%nat Ht) as H0.
      rewrite Nat.add_0_r in H0.
      destruct (get_outcome net (gets w)) as [code json|msg]; [|discriminate].
      cbn [is_not_found] in H0. apply Z.eqb_eq in H0. subst code.
      cbn [Z.eqb Pos.eqb].
      pose proof (world_at_next net w 0) as Hnext.
      rewrite world_at_0 in Hnext. rewrite Hnext.
      destruct (IH (world_at net w 1)) as (k & Hk & Hover).
      * pose proof (time_at_step net latency_nonneg sleep_extra_nonneg w 0).
        cbn [world_at now]. cbn [time_at] in *. unfold seconds in *. lia.
      * intros i Hi. rewrite time_at_shift in Hi.
        cbn [world_at gets].
        replace (gets w + 1 + i)%nat with (gets w + Datatypes.S i)%nat by lia.
        now apply H404.
      * exists (Datatypes.S k). rewrite Hk, world_at_shift.
        split; [reflexivity|]. now rewrite <- time_at_shift.
    + apply Z.ltb_ge in Ht. exists 0%nat. now rewrite world_at_0.
Qed.

End PollingTimeout.

Lemma enough_fuel_covers (max_wait : Z) (fuel : nat) :
  (enough_fuel max_wait <= fuel)%nat ->
  exists fuel', fuel = Datatypes.S fuel'
                /\ seconds max_wait <= seconds 5 * Z.of_nat fuel'.
Proof.
  unfold enough_fuel, seconds. intros H. exists (fuel - 1)%nat.
  split; [lia|].
  destruct (Z.le_gt_cases max_wait 0) as [Hneg|Hpos]; [lia|].
  pose proof (Z.div_mod max_wait 5 ltac:(lia)) as Hdm.
  pose proof (Z.mod_pos_bound max_wait 5 ltac:(lia)) as Hm.
  assert (0 <= max_wait / 5) by (apply Z.div_pos; lia).
  lia.
Qed.

Lemma turns_within_fuel (net : Network) (w0 : NetWorld) (max_wait : Z)
    (N fuel : nat) :
  (forall i, 0 <= get_latency net i) ->
  (forall i, 0 <= sleep_extra net i) ->
  (enough_fuel max_wait <= fuel)%nat ->
  time_at net w0 N - now w0 < seconds max_wait ->
  exists fuel', fuel = (N + Datatypes.S fuel')%nat.
Proof.
  intros Hl He Hfuel Htime.
  pose proof (time_at_lower net Hl He w0 N) as Hlow.
  destruct (enough_fuel_covers max_wait fuel Hfuel) as (f & -> & Hf).
  exists (f - N)%nat. unfold seconds in *. lia.
Qed.

(** ** Polling: the claim *)

(** C8: the poll loop of [_wait_for_completion], run with fuel enough for
    [max_wait], requests taking time but not negative time.
    - If the status endpoint answers "not found" to [N] requests and a
      success payload to the next, which the client gets to make before the
      timeout has elapsed, the client returns that success result, after
      exactly [N] sleeps and [N + 1] requests.
    - If every request made before the timeout has elapsed is answered
      "not found", the client leaves the loop once the time is up and
      returns the timeout failure, making no further request.
    - An answer with any status but 200 and 404, or a failed request, ends
      the polling at once with a failure result. *)
Theorem wait_for_completion_outcomes (net : Network) (job_id : value)
    (max_wait : Z) (fuel : nat) (w0 : NetWorld) :
  (forall i, 0 <= get_latency net i) ->
  (forall i, 0 <= sleep_extra net i) ->
  (enough_fuel max_wait <= fuel)%nat ->
  (forall N job_result,
     (forall i, (i < N)%nat ->
        is_not_found (get_outcome net (gets w0 + i)) = true) ->
     get_outcome net (gets w0 + N) = Response 200 (ret (VDict job_result)) ->
     time_at net w0 N - now w0 < seconds max_wait ->
     _wait_for_completion net fuel job_id max_wait w0
     = Some (ret (success_result job_id job_result), answered_at net w0 N))
  /\ ((forall i, time_at net w0 i - now w0 < seconds max_wait ->
         is_not_found (get_outcome net (gets w0 + i)) = true) ->
      exists k,
        _wait_for_completion net fuel job_id max_wait w0
        = Some (ret (failure "Job timeout"), world_at net w0 k)
        /\ seconds max_wait <= time_at net w0 k - now w0)
  /\ (forall N status_code json,
        (forall i, (i < N)%nat ->
           is_not_found (get_outcome net (gets w0 + i)) = true) ->
        get_outcome net (gets w0 + N) = Response status_code json ->
        status_code <> 200 -> status_code <> 404 ->
        time_at net w0 N - now w0 < seconds max_wait ->
        _wait_for_completion net fuel job_id max_wait w0
        = Some (ret (failure ("Job failed with status " +:+ pretty status_code)),
                answered_at net w0 N))
  /\ (forall N msg,
        (forall i, (i < N)%nat ->
           is_not_found (get_outcome net (gets w0 + i)) = true) ->
        get_outcome net (gets w0 + N) = RequestFailed msg ->
        time_at net w0 N - now w0 < seconds max_wait ->
        _wait_for_completion net fuel job_id max_wait w0
        = Some (ret (failure ("Error checking job status: " +:+ msg)),
                answered_at net w0 N)).
Proof.
  intros Hl He Hfuel. unfold _wait_for_completion.
  assert (Hskip : forall N,
    (forall i, (i < N)%nat ->
       is_not_found (get_outcome net (gets w0 + i)) = true) ->
    time_at net w0 N - now w0 < seconds max_wait ->
    exists fuel',
      wait_loop net fuel job_id (now w0) max_wait w0
      = if time_at net w0 N - now w0 <? seconds max_wait then
          match get_outcome net (gets w0 + N) with
          | RequestFailed msg =>
              Some (ret (failure ("Error checking job status: " +:+ msg)),
                    answered_at net w0 N)
          | Response status_code json =>
              if status_code =? 200 then
                match json with
                | inl (RequestException msg) =>
                    Some (ret (failure ("Error checking job status: " +:+ msg)),
                          answered_at net w0 N)
                | inl e => Some (raise e, answered_at net w0 N)
                | inr job_result =>
                    Some
                      (let* result := py_get job_result "result" (VDict []) in
                       let* logs := py_get job_result "logs" (VList []) in
                       ret [("success", VBool true);
                            ("job_id", job_id);
                            ("result", result);
                            ("logs", logs)],
                       answered_at net w0 N)
                end
              else if status_code =? 404 then
                wait_loop net fuel' job_id (now w0) max_wait
                  (time_sleep net 5 (answered_at net w0 N))
              else
                Some (ret (failure ("Job failed with status "
                                    +:+ pretty status_code)),
                      answered_at net w0 N)
          end
        else Some (ret (failure "Job timeout"), world_at net w0 N)).
  { intros N H404 Htime.
    destruct (turns_within_fuel net w0 max_wait N fuel Hl He Hfuel Htime)
      as [fuel' ->].
    exists fuel'. rewrite wait_loop_skip.
    - now rewrite wait_loop_turn.
    - intros i Hi. split; [now apply H404|].
      pose proof (time_at_mono net Hl He w0 i N ltac:(lia)). lia. }
  split; [|split; [|split]].
  - intros N job_result H404 H200 Htime.
    destruct (Hskip N H404 Htime) as [fuel' ->].
    rewrite (proj2 (Z.ltb_lt _ _) Htime), H200. reflexivity.
  - intros H404.
    destruct (enough_fuel_covers max_wait fuel Hfuel) as (fuel' & -> & Hf).
    apply (wait_loop_timeout net Hl He job_id (now w0) max_wait fuel' w0);
      [lia | exact H404].
  - intros N status_code json H404 Hout Hn200 Hn404 Htime.
    destruct (Hskip N H404 Htime) as [fuel' ->].
    rewrite (proj2 (Z.ltb_lt _ _) Htime), Hout.
    rewrite (proj2 (Z.eqb_neq _ _) Hn200), (proj2 (Z.eqb_neq _ _) Hn404).
    reflexivity.
  - intros N msg H404 Hout Htime.
    destruct (Hskip N H404 Htime) as [fuel' ->].
    rewrite (proj2 (Z.ltb_lt _ _) Htime), Hout. reflexivity.
Qed.

(** With the default timeout of 300 s: a result that is ready at the third
    request is returned after two sleeps; a job that never finishes ends in
    the timeout failure; a server error after one sleep ends the polling. *)
Lemma wait_for_completion_outcomes_witness :
  _wait_for_completion ready_third_net (enough_fuel 300) (VStr "job-1") 300
    fresh_world
  = Some (ret (success_result (VStr "job-1") job_payload),
          {| now := 10062; gets := 3; sleeps := 2 |})
  /\ (exists k,
        _wait_for_completion never_ready_net (enough_fuel 300) (VStr "job-1")
          300 fresh_world
        = Some (ret (failure "Job timeout"), world_at never_ready_net fresh_world k))
  /\ _wait_for_completion failing_net (enough_fuel 300) (VStr "job-1") 300
       fresh_world
     = Some (ret (failure "Job failed with status 500"),
             {| now := 5041; gets := 2; sleeps := 1 |}).
Proof.
  split; [|split].
  - refine (proj1 (wait_for_completion_outcomes ready_third_net (VStr "job-1")
                     300 (enough_fuel 300) fresh_world _ _ _)
                  2%nat job_payload _ eq_refl eq_refl).
    + intros i. simpl. lia.
    + intros i. simpl. lia.
    + apply Nat.le_refl.
    + intros [|[|i]] Hi; [reflexivity | reflexivity | lia].
  - destruct (proj1 (proj2 (wait_for_completion_outcomes never_ready_net
                              (VStr "job-1") 300 (enough_fuel 300) fresh_world
                              (fun _ => ltac:(simpl; lia))
                              (fun _ => ltac:(simpl; lia))
                              (Nat.le_refl _)))
                (fun _ _ => eq_refl)) as (k & Hk & _).
    exists k. exact Hk.
  - refine (proj1 (proj2 (proj2 (wait_for_completion_outcomes failing_net
                     (VStr "job-1") 300 (enough_fuel 300) fresh_world _ _ _)))
                  1%nat 500 _ _ eq_refl _ _ eq_refl).
    + intros i. simpl. lia.
    + intros i. simpl. lia.
    + apply Nat.le_refl.
    + intros [|i] Hi; [reflexivity | lia].
    + discriminate.
    + discriminate.
Defined.

(** On the other side of the timeout: "not found" sixty times takes the
    300 seconds, and the result that the sixty-first request would fetch is
    never asked for. *)
Lemma wait_for_completion_sixty_turns :
  _wait_for_completion
    {| get_outcome i :=
         if (i <? 60)%nat then Response 404 (ret (VDict []))
         else Response 200 (ret (VDict job_payload));
       get_latency _ := 0;
       sleep_extra _ := 0 |}
    (enough_fuel 300) (VStr "job-1") 300 fresh_world
  = Some (ret (failure "Job timeout"),
          {| now := 300000; gets := 60; sleeps := 60 |}).
Proof. vm_compute. reflexivity. Qed.

(** [run_flow] polls with the default timeout of 300 seconds once the
    engine has answered the submission with a job id. *)
Lemma run_flow_polls (net : Network) (http_error_text : Z -> string)
    (fuel : nat) (status_code post_latency : Z) (job_data : dict)
    (job_id : value) (w : NetWorld) :
  (400 <=? status_code) && (status_code <? 600) = false ->
  dict_lookup job_data "uuid" = Some job_id ->
  truthy job_id = true ->
  run_flow net http_error_text fuel
    (Response status_code (ret (VDict job_data))) post_latency w
  = _wait_for_completion net fuel job_id 300
      {| now := now w + post_latency; gets := gets w; sleeps := sleeps w |}.
Proof.
  intros Hcode Huuid Htruthy. unfold run_flow. rewrite Hcode.
  cbn [py_get ret]. unfold get. rewrite Huuid, Htruthy. reflexivity.
Qed.

(** * Further properties *)

(** ** Validation *)

Lemma validate_environment_raises (n : string) (e : value)
    (acc : list string * list string) (x : exn) :
  validate_environment n e acc = raise x ->
  exists ty attr, x = AttributeError ty attr.
Proof.
  unfold validate_environment. destruct acc as [es ws].
  destruct e as [| | | | | |d]; simpl; try (intros [= <-]; eauto).
  destruct (get d "resources" (VDict [])) as [| | | | | |r]; simpl;
    intros [= <-]; eauto.
Qed.

Lemma validate_environments_raises (items : list (string * value)) :
  forall acc x,
  validate_environments items acc = raise x ->
  exists ty attr, x = AttributeError ty attr.
Proof.
  induction items as [|[n e] items IH]; intros acc x;
    cbn [validate_environments]; [discriminate|].
  destruct (validate_environment n e acc) as [y|acc'] eqn:He; cbn [bind].
  - intros [= <-]. exact (validate_environment_raises n e acc y He).
  - apply IH.
Qed.

Lemma validate_configuration_raises (config : ApplicationConfiguration)
    (x : exn) :
  validate_configuration config = raise x ->
  exists ty attr, x = AttributeError ty attr.
Proof.
  unfold validate_configuration.
  destruct (py_items (get (spec config) "environments" (VDict [])))
    as [y|items] eqn:Hitems; cbn [bind].
  - intros [= <-]. revert Hitems. unfold py_items.
    destruct (get (spec config) "environments" (VDict []));
      intros [= <-]; eauto.
  - match goal with
    | |- context [validate_environments items ?acc] =>
        destruct (validate_environments items acc) as [y|[es ws]] eqn:Hloop
    end; cbn [bind].
    + intros [= <-]. exact (validate_environments_raises items _ y Hloop).
    + discriminate.
Qed.

(** Validation either returns a result, on the configurations [validates]
    accepts, or raises an [AttributeError], on all others: it raises no
    other exception. *)
Theorem validate_returns_or_raises_AttributeError
    (config : ApplicationConfiguration) :
  (validates config = true ->
   exists r, validate_configuration config = ret r)
  /\ (validates config = false ->
      exists ty attr,
        validate_configuration config = raise (AttributeError ty attr)).
Proof.
  split.
  - intros H. now apply validate_returns_iff.
  - intros H. destruct (validate_configuration config) as [x|r] eqn:Hv.
    + destruct (validate_configuration_raises config x Hv) as (ty & attr & ->).
      now exists ty, attr.
    + assert (validates config = true)
        by (apply validate_returns_iff; now exists r).
      congruence.
Qed.

Lemma validate_returns_or_raises_AttributeError_witness :
  (exists r, validate_configuration config_mixed_replicas = ret r)
  /\ (exists ty attr,
        validate_configuration config_null_resources
        = raise (AttributeError ty attr)).
Proof.
  split.
  - exact (proj1 (validate_returns_or_raises_AttributeError
                    config_mixed_replicas) eq_refl).
  - exact (proj2 (validate_returns_or_raises_AttributeError
                    config_null_resources) eq_refl).
Defined.

(** The report of a validation that returns: the errors for name,
    namespace and application in this order, each only if the field is
    missing or empty, then one replica error per offending environment in
    the order of the environment map; the warnings are the one for an
    empty environment map, then one per environment lacking resource
    requests or limits, in the same order. *)
Theorem validate_report (config : ApplicationConfiguration) (envs : dict) :
  validates config = true ->
  environments_of config = VDict envs ->
  exists r, validate_configuration config = ret r
    /\ errors r
       = (if missing (metadata config) "name"
          then ["Configuration name is required"] else [])
         ++ (if missing (metadata config) "namespace"
             then ["Namespace is required"] else [])
         ++ (if missing (spec config) "application"
             then ["Application name is required"] else [])
         ++ flat_map env_errors envs
    /\ warnings r
       = (match envs with
          | [] => ["No environments configured"]
          | _ :: _ => []
          end)
         ++ flat_map env_warnings envs
    /\ (length (errors r) <= 3 + length envs)%nat
    /\ (length (warnings r) <= 1 + length envs)%nat.
Proof.
  intros Hv He. eexists.
  split; [apply (validate_configuration_shaped config envs He Hv)|].
  cbn [errors warnings].
  assert (Hle : forall (f : string * value -> list string) (l : dict),
            (forall kv, (length (f kv) <= 1)%nat) ->
            (length (flat_map f l) <= length l)%nat).
  { intros f l Hf. induction l as [|kv l IH]; [reflexivity|].
    cbn [flat_map length]. rewrite length_app. specialize (Hf kv). lia. }
  assert (Herr : forall kv, (length (env_errors kv) <= 1)%nat).
  { intros [n v]. unfold env_errors. cbn [snd fst].
    destruct v; simpl; try lia. destruct (invalid_replicas _); simpl; lia. }
  assert (Hwarn : forall kv, (length (env_warnings kv) <= 1)%nat).
  { intros [n v]. unfold env_warnings. cbn [snd fst].
    destruct v; simpl; try lia. destruct (lacks_resources _); simpl; lia. }
  pose proof (Hle env_errors envs Herr).
  pose proof (Hle env_warnings envs Hwarn).
  split; [|split; [|split]].
  - unfold basic_errors. now rewrite <- !app_assoc.
  - destruct envs; reflexivity.
  - unfold basic_errors. rewrite !length_app.
    destruct (missing (metadata config) "name"),
      (missing (metadata config) "namespace"),
      (missing (spec config) "application"); simpl; lia.
  - rewrite length_app. destruct envs; simpl in *; lia.
Qed.

Lemma validate_report_witness :
  exists r, validate_configuration config_all_missing = ret r
    /\ errors r = ["Configuration name is required";
                   "Namespace is required";
                   "Application name is required";
                   replica_error "dev"]
    /\ warnings r = [resource_warning "dev"].
Proof.
  destruct (validate_report config_all_missing _ eq_refl eq_refl)
    as (r & Hr & Herr & Hwarn & _).
  exists r. split; [exact Hr|]. split; [exact Herr | exact Hwarn].
Defined.

Lemma env_errors_none (envs : dict) :
  flat_map env_errors envs = []
  <-> forall n e, In (n, VDict e) envs -> invalid_replicas e = false.
Proof.
  induction envs as [|[n v] envs IH]; cbn [flat_map].
  - split; [intros _ n e []|reflexivity].
  - split.
    + intros H. apply app_eq_nil in H as [Hhd Htl].
      intros n' e [[= -> ->]|Hin].
      * unfold env_errors in Hhd. cbn [snd fst] in Hhd.
        destruct (invalid_replicas e); [discriminate|reflexivity].
      * now apply (proj1 IH Htl n' e).
    + intros H. rewrite (proj2 IH) by (intros n' e Hin; apply (H n' e); now right).
      rewrite app_nil_r. unfold env_errors. cbn [snd fst].
      destruct v as [| | | | | |e]; try reflexivity.
      now rewrite (H n e (or_introl eq_refl)).
Qed.

(** A validation that returns says [valid] exactly when name, namespace
    and application are all given and non-empty and every environment has
    a replica count that is an [int] instance above 0. *)
Theorem validate_valid_iff_sound (config : ApplicationConfiguration)
    (envs : dict) :
  validates config = true ->
  environments_of config = VDict envs ->
  exists r, validate_configuration config = ret r
    /\ (valid r = true
        <-> missing (metadata config) "name" = false
            /\ missing (metadata config) "namespace" = false
            /\ missing (spec config) "application" = false
            /\ forall n e, In (n, VDict e) envs ->
                           invalid_replicas e = false).
Proof.
  intros Hv He. eexists.
  split; [apply (validate_configuration_shaped config envs He Hv)|].
  cbn [valid]. rewrite <- env_errors_none. unfold basic_errors.
  destruct (missing (metadata config) "name"),
    (missing (metadata config) "namespace"),
    (missing (spec config) "application");
    cbn [app length Nat.eqb];
    try (split; [discriminate | intros (? & ? & ? & ?); discriminate]).
  destruct (flat_map env_errors envs); cbn [length Nat.eqb]; split;
    intros H; try discriminate; try tauto.
  destruct H as (_ & _ & _ & H). discriminate.
Qed.

Lemma validate_valid_iff_sound_witness :
  exists r, validate_configuration config_only_resources_missing = ret r
    /\ valid r = true.
Proof.
  destruct (validate_valid_iff_sound config_only_resources_missing _
              eq_refl eq_refl) as (r & Hr & Hiff).
  exists r. split; [exact Hr|]. apply Hiff.
  repeat (split; [reflexivity|]).
  intros n e [[= <- <-]|[[= <- <-]|[]]]; reflexivity.
Defined.

(** ** Preview *)

Lemma generate_manifests_shaped (py_repr : value -> string)
    (config : ApplicationConfiguration) (a ns : value) (envs : dict) :
  dict_lookup (spec config) "application" = Some a ->
  dict_lookup (metadata config) "namespace" = Some ns ->
  environments_of config = VDict envs ->
  forallb (fun kv => environment_previewable (snd kv)) envs = true ->
  _generate_manifests py_repr config
  = ret (manifests_per_spec py_repr a ns envs).
Proof.
  intros Ha Hn He Henvs. unfold _generate_manifests, web_app_manifest.
  unfold environments_of in He. rewrite He.
  rewrite (proj2 (getitem_lookup _ _ _) Ha), (proj2 (getitem_lookup _ _ _) Hn).
  cbn [bind ret py_items app].
  rewrite (generate_environments_shaped py_repr config a ns envs)
    by (try apply getitem_lookup; assumption).
  reflexivity.
Qed.

Lemma manifests_of_environment_spec (py_repr : value -> string)
    (a ns : value) (kv : string * value) :
  length (manifests_of_environment py_repr a ns kv)
  = ((if has_sub_spec "database" kv then 1 else 0)
     + (if has_sub_spec "cache" kv then 1 else 0))%nat
  /\ Forall (fun m => manifest_namespace m = Some ns
                      /\ manifest_apiVersion m = Some api_version)
       (manifests_of_environment py_repr a ns kv).
Proof.
  unfold manifests_of_environment, has_sub_spec.
  destruct (sub_spec (snd kv) "database"), (sub_spec (snd kv) "cache");
    split; try reflexivity; repeat constructor.
Qed.

Lemma flat_map_manifests_spec (py_repr : value -> string) (a ns : value)
    (envs : dict) :
  length (flat_map (manifests_of_environment py_repr a ns) envs)
  = (length (List.filter (has_sub_spec "database") envs)
     + length (List.filter (has_sub_spec "cache") envs))%nat
  /\ Forall (fun m => manifest_namespace m = Some ns
                      /\ manifest_apiVersion m = Some api_version)
       (flat_map (manifests_of_environment py_repr a ns) envs).
Proof.
  induction envs as [|kv envs [IHlen IHall]]; [split; [reflexivity|constructor]|].
  destruct (manifests_of_environment_spec py_repr a ns kv) as [Hlen Hall].
  cbn [flat_map List.filter]. split.
  - rewrite length_app, Hlen, IHlen.
    destruct (has_sub_spec "database" kv), (has_sub_spec "cache" kv);
      cbn [length]; lia.
  - apply Forall_app. now split.
Qed.

(** What preview emits for a previewable configuration: one manifest, plus
    one for every environment with a database sub-spec and one for every
    environment with a cache sub-spec, so between 1 and 1 + 2 * the number
    of environments; and every one of them is for the configuration's
    namespace and has the platform's [apiVersion]. *)
Theorem preview_manifest_invariants (py_repr : value -> string)
    (config : ApplicationConfiguration) :
  previewable config = true ->
  exists ns envs manifests,
    dict_lookup (metadata config) "namespace" = Some ns
    /\ environments_of config = VDict envs
    /\ _generate_manifests py_repr config = ret manifests
    /\ length manifests
       = (1 + length (List.filter (has_sub_spec "database") envs)
          + length (List.filter (has_sub_spec "cache") envs))%nat
    /\ (1 <= length manifests <= 1 + 2 * length envs)%nat
    /\ Forall (fun m => manifest_namespace m = Some ns
                        /\ manifest_apiVersion m = Some api_version)
         manifests.
Proof.
  intros H. unfold previewable in H.
  apply andb_prop in H as [H Henvs]. apply andb_prop in H as [Ha Hn].
  apply bool_decide_eq_true in Ha, Hn.
  destruct Ha as [a Ha], Hn as [ns Hn].
  destruct (environments_of config) as [| | | | | |envs] eqn:He;
    try discriminate.
  exists ns, envs, (manifests_per_spec py_repr a ns envs).
  split; [exact Hn|]. split; [reflexivity|].
  split; [now apply generate_manifests_shaped|].
  destruct (flat_map_manifests_spec py_repr a ns envs) as [Hlen Hall].
  unfold manifests_per_spec. cbn [length]. rewrite Hlen.
  pose proof (List.filter_length_le (has_sub_spec "database") envs).
  pose proof (List.filter_length_le (has_sub_spec "cache") envs).
  split; [lia|]. split; [lia|].
  constructor; [now split | exact Hall].
Qed.

Lemma preview_manifest_invariants_witness :
  exists manifests,
    _generate_manifests (fun _ => "") config_database_and_cache = ret manifests
    /\ length manifests = 3%nat
    /\ Forall (fun m => manifest_namespace m = Some (VStr "team-a")
                        /\ manifest_apiVersion m = Some api_version)
         manifests.
Proof.
  destruct (preview_manifest_invariants (fun _ => "")
              config_database_and_cache eq_refl)
    as (ns & envs & manifests & Hn & He & Hgen & Hlen & _ & Hall).
  injection Hn as <-. injection He as <-.
  exists manifests. split; [exact Hgen|]. split; [exact Hlen | exact Hall].
Defined.

(** ** Templates *)

(** [apply_template] answers with the 404 exactly when no template, built
    in or loaded from the directory, has the name asked for. *)
Theorem apply_template_not_found (files : template_files)
    (template_name app_name namespace : string) :
  (forall t, In t (get_templates files) -> name t <> template_name)
  <-> apply_template files template_name app_name namespace
      = raise (HTTPException 404
                 ("Template " +:+ template_name +:+ " not found")).
Proof.
  unfold apply_template.
  destruct (find (fun t => String.eqb (name t) template_name)
              (get_templates files)) as [t|] eqn:Hfind.
  - apply find_some in Hfind as [Hin Hname]. apply String.eqb_eq in Hname.
    split.
    + intros H. now destruct (H t Hin).
    + destruct (py_mapping (get (configuration t) "spec" (VDict [])))
        as [e|d] eqn:Hm; cbn [bind]; [|discriminate].
      revert Hm. unfold py_mapping.
      destruct (get (configuration t) "spec" (VDict []));
        intros [= <-]; discriminate.
  - split; [reflexivity|]. intros _ t Hin Hname.
    pose proof (find_none _ _ Hfind t Hin) as Hf. cbn beta in Hf.
    apply String.eqb_neq in Hf. contradiction.
Qed.

Lemma apply_template_not_found_witness :
  apply_template sample_files "batch-job" "billing" "team-b"
  = raise (HTTPException 404 "Template batch-job not found").
Proof.
  apply (proj1 (apply_template_not_found sample_files "batch-job" "billing"
                  "team-b")).
  intros t [<-|[<-|[<-|[]]]]; discriminate.
Defined.

(** A template file cannot take the place of a built-in template: for the
    two built-in names the result is the same whatever the directory
    holds. *)
Theorem builtin_templates_first (files : template_files)
    (template_name app_name namespace : string) :
  In template_name (map name builtin_templates) ->
  apply_template files template_name app_name namespace
  = apply_template [] template_name app_name namespace.
Proof. intros [<-|[<-|[]]]; reflexivity. Qed.

Lemma builtin_templates_first_witness :
  apply_template
    [Some {| name := "api-service"; description := "shadow";
             type := "worker"; configuration := [] |}]
    "api-service" "billing" "team-b"
  = apply_template [] "api-service" "billing" "team-b".
Proof.
  apply builtin_templates_first. simpl. tauto.
Defined.

Lemma dict_lookup_not_in_keys (d : dict) (k : string) :
  ~ In k (keys d) -> dict_lookup d k = None.
Proof.
  induction d as [|[k0 v0] d IH]; simpl; [reflexivity|].
  intros H. destruct (String.eqb k0 k) eqn:E.
  - apply String.eqb_eq in E. tauto.
  - apply IH. tauto.
Qed.

(** [{**d, **other}] read by key: the items of [other] win. *)
Lemma dict_lookup_dict_update (other : dict) :
  dict_wf other ->
  forall (d : dict) (k : string),
  dict_lookup (dict_update d other) k
  = match dict_lookup other k with
    | Some v => Some v
    | None => dict_lookup d k
    end.
Proof.
  unfold dict_wf, keys, dict_update.
  induction other as [|[k0 v0] other IH]; intros Hwf d k; [reflexivity|].
  inversion Hwf as [|? ? Hnotin Hwf']; subst.
  cbn [fold_left fst snd]. rewrite IH by exact Hwf'. cbn [dict_lookup].
  destruct (String.eqb k0 k) eqn:E.
  - apply String.eqb_eq in E. subst k0.
    rewrite (dict_lookup_not_in_keys other k Hnotin).
    apply dict_lookup_setitem_eq.
  - apply String.eqb_neq in E.
    rewrite (dict_lookup_setitem_ne d k0 k v0 E). reflexivity.
Qed.

(** The configuration made from a template: the metadata are built from
    the application name, the namespace and the template name, and the
    spec is the template's spec with [application] added; a template
    whose spec has an [application] entry of its own overrides the
    application name asked for. *)
Theorem apply_template_merges_spec (files : template_files)
    (template_name app_name namespace : string)
    (template : ConfigurationTemplate) (template_spec : dict) :
  find (fun t => String.eqb (name t) template_name) (get_templates files)
  = Some template ->
  get (configuration template) "spec" (VDict []) = VDict template_spec ->
  dict_wf template_spec ->
  exists config,
    apply_template files template_name app_name namespace = ret config
    /\ metadata config
       = [("name", VStr (app_name +:+ "-config"));
          ("namespace", VStr namespace);
          ("labels", VDict [("app", VStr app_name);
                            ("template", VStr template_name)])]
    /\ forall k,
         dict_lookup (spec config) k
         = match dict_lookup template_spec k with
           | Some v => Some v
           | None =>
               if String.eqb k "application" then Some (VStr app_name)
               else None
           end.
Proof.
  intros Hfind Hspec Hwf. unfold apply_template. rewrite Hfind, Hspec.
  cbn [py_mapping bind ret]. eexists. split; [reflexivity|].
  split; [reflexivity|]. intros k. cbn [spec].
  rewrite (dict_lookup_dict_update template_spec Hwf). cbn [dict_lookup].
  rewrite (String.eqb_sym k "application"). reflexivity.
Qed.

(** The worker template of the sample directory names its own
    application: the one asked for is lost. *)
Lemma apply_template_merges_spec_witness :
  exists config,
    apply_template sample_files "worker" "billing" "team-b" = ret config
    /\ dict_lookup (metadata config) "name" = Some (VStr "billing-config")
    /\ dict_lookup (spec config) "application" = Some (VStr "queue-worker").
Proof.
  destruct (apply_template_merges_spec sample_files "worker" "billing" "team-b"
              worker_template _ eq_refl eq_refl) as (config & Hc & Hm & Hs).
  { unfold dict_wf. simpl.
    repeat (constructor; [simpl; intuition discriminate|]). constructor. }
  exists config. split; [exact Hc|]. split.
  - rewrite Hm. reflexivity.
  - rewrite Hs. reflexivity.
Defined.

(** A configuration made from a built-in template passes validation
    exactly when the application name and the namespace are not empty: it
    never lacks a name, no environment has a replica error, and there is
    no warning. *)
Theorem builtin_template_validates (files : template_files)
    (template_name app_name namespace : string) :
  In template_name (map name builtin_templates) ->
  exists config,
    apply_template files template_name app_name namespace = ret config
    /\ validate_configuration config
       = ret {| valid := negb (String.eqb namespace "")
                         && negb (String.eqb app_name "");
                errors :=
                  (if String.eqb namespace ""
                   then ["Namespace is required"] else [])
                  ++ (if String.eqb app_name ""
                      then ["Application name is required"] else []);
                warnings := [] |}.
Proof.
  intros [<-|[<-|[]]]; (eexists; split; [reflexivity|]);
    destruct app_name, namespace; reflexivity.
Qed.

Lemma builtin_template_validates_witness :
  exists config,
    apply_template sample_files "api-service" "billing" "" = ret config
    /\ validate_configuration config
       = ret {| valid := false; errors := ["Namespace is required"];
                warnings := [] |}.
Proof.
  apply (builtin_template_validates sample_files "api-service" "billing" "").
  simpl. tauto.
Defined.

(** Previewing a configuration made from a built-in template: the web
    application gives the application manifest alone, the API service the
    application manifest and the database instances of development and
    production, named after the application. *)
Theorem builtin_template_preview (py_repr : value -> string)
    (files : template_files) (app_name namespace : string) :
  (exists config,
     apply_template files "web-application" app_name namespace = ret config
     /\ _generate_manifests py_repr config
        = ret [application_manifest (VStr app_name) (VStr namespace)
                 (environments_of config)])
  /\ (exists config,
        apply_template files "api-service" app_name namespace = ret config
        /\ _generate_manifests py_repr config
           = ret [application_manifest (VStr app_name) (VStr namespace)
                    (environments_of config);
                  database_instance py_repr (VStr app_name) (VStr namespace)
                    "development"
                    [("type", VStr "postgresql"); ("size", VStr "small")];
                  database_instance py_repr (VStr app_name) (VStr namespace)
                    "production"
                    [("type", VStr "postgresql"); ("size", VStr "large")]]
        /\ instance_name py_repr (VStr app_name) "development" "db"
           = app_name +:+ "-development-db").
Proof.
  split; eexists; repeat split; reflexivity.
Qed.

(** ** Listing and getting *)

Lemma parse_all_Forall2
    (parse_configuration : value -> result ApplicationConfiguration)
    (items : list value) (configs : list ApplicationConfiguration) :
  Forall2 (fun item config => parse_configuration item = ret config)
    items configs ->
  parse_all parse_configuration items = ret configs.
Proof.
  induction 1 as [|item config items configs Hitem _ IH]; [reflexivity|].
  cbn [parse_all]. rewrite Hitem. cbn [bind ret]. rewrite IH. reflexivity.
Qed.

(** [list_configurations] asks for one namespace when given a non-empty
    one and for the whole cluster otherwise, the empty namespace included.
    A fault of the API, whatever its status, gives the empty list and no
    error, as does an answer without [items]; a list of items that all
    parse gives their configurations, in order. *)
Theorem list_configurations_answer (S : Type) (api : CustomObjectsReadApi S)
    (parse_configuration : value -> result ApplicationConfiguration)
    (py_chars : string -> list string)
    (namespace : option string) (w : World S) :
  (forall status reason,
     fst (list_request api namespace (cluster w))
     = raise (ApiException status reason) ->
     fst (list_configurations api parse_configuration py_chars namespace w)
     = ret [])
  /\ (forall answer,
        fst (list_request api namespace (cluster w)) = ret (VDict answer) ->
        dict_lookup answer "items" = None ->
        fst (list_configurations api parse_configuration py_chars namespace w)
        = ret [])
  /\ (forall answer items configs,
        fst (list_request api namespace (cluster w)) = ret (VDict answer) ->
        dict_lookup answer "items" = Some (VList items) ->
        Forall2 (fun item config => parse_configuration item = ret config)
          items configs ->
        fst (list_configurations api parse_configuration py_chars namespace w)
        = ret configs)
  /\ list_configurations api parse_configuration py_chars (Some "") w
     = list_configurations api parse_configuration py_chars None w.
Proof.
  assert (Hrun :
    fst (list_configurations api parse_configuration py_chars namespace w)
    = match fst (list_request api namespace (cluster w)) with
      | inl (ApiException _ _) => ret []
      | inl e => raise e
      | inr configs =>
          match (let* items := py_get configs "items" (VList []) in
                 let* items := py_iter py_chars items in
                 parse_all parse_configuration items) with
          | inl (ApiException _ _) => ret []
          | other => other
          end
      end).
  { unfold list_configurations, list_request, except_ApiException, mbind,
      ask, lift, mret.
    destruct namespace as [ns|]; [destruct (negb (String.eqb ns ""))|];
      match goal with
      | |- context [?f (cluster w)] =>
          destruct (f (cluster w)) as [[e|configs] c]
      end; cbn [fst];
      try (destruct e; reflexivity);
      match goal with
      | |- context [bind ?m ?k] => destruct (bind m k) as [e|x]
      end; try destruct e; reflexivity. }
  split; [|split; [|split]].
  - intros status reason Ha. now rewrite Hrun, Ha.
  - intros answer Ha Hitems. rewrite Hrun, Ha. cbn [py_get bind ret].
    unfold get. now rewrite Hitems.
  - intros answer items configs Ha Hitems Hparse. rewrite Hrun, Ha.
    cbn [py_get bind ret]. unfold get. rewrite Hitems. cbn [py_iter bind ret].
    now rewrite (parse_all_Forall2 parse_configuration items configs Hparse).
  - reflexivity.
Qed.

Lemma list_configurations_answer_witness :
  fst (list_configurations (answering (raise unavailable)) parse_stored
         (fun _ => []) (Some "team-a") (world_of tt)) = ret []
  /\ fst (list_configurations (answering (ret (VDict []))) parse_stored
            (fun _ => []) None (world_of tt)) = ret []
  /\ fst (list_configurations (answering (ret stored_items)) parse_stored
            (fun _ => []) (Some "team-a") (world_of tt))
     = ret [config_database_and_cache; config_created_before].
Proof.
  split; [|split].
  - exact (proj1 (list_configurations_answer unit
                    (answering (raise unavailable)) parse_stored (fun _ => [])
                    (Some "team-a") (world_of tt))
             (Some 503) _ eq_refl).
  - exact (proj1 (proj2 (list_configurations_answer unit
                           (answering (ret (VDict []))) parse_stored
                           (fun _ => []) None (world_of tt)))
             [] eq_refl eq_refl).
  - refine (proj1 (proj2 (proj2 (list_configurations_answer unit
                     (answering (ret stored_items)) parse_stored
                     (fun _ => []) (Some "team-a") (world_of tt))))
              _ _ _ eq_refl eq_refl _).
    repeat constructor.
Defined.

(** The route that gets one configuration: the parsed configuration when
    the API has it; a 404 exactly when the API answers not found, where the
    manager returns [None]; a 500 with the fault's text for any other
    status. *)
Theorem get_configuration_route (S : Type) (api : CustomObjectsReadApi S)
    (parse_configuration : value -> result ApplicationConfiguration)
    (name namespace : string) (w : World S) :
  (forall stored config,
     fst (get_namespaced_custom_object api namespace name (cluster w))
     = ret stored ->
     parse_configuration stored = ret config ->
     fst (ReadRoutes.get_configuration api parse_configuration name namespace w)
     = ret config)
  /\ (forall reason,
        fst (get_namespaced_custom_object api namespace name (cluster w))
        = raise (ApiException (Some 404) reason) ->
        fst (get_configuration api parse_configuration name namespace w)
        = ret None
        /\ fst (ReadRoutes.get_configuration api parse_configuration
                  name namespace w)
           = raise (HTTPException 404 "Configuration not found"))
  /\ (forall status reason,
        fst (get_namespaced_custom_object api namespace name (cluster w))
        = raise (ApiException status reason) ->
        status <> Some 404 ->
        fst (ReadRoutes.get_configuration api parse_configuration
               name namespace w)
        = raise (HTTPException 500
                   ("Failed to get configuration: " +:+ reason))).
Proof.
  unfold ReadRoutes.get_configuration, get_configuration,
    except_ApiException, mbind, ask, lift, mret, mraise.
  destruct (get_namespaced_custom_object api namespace name (cluster w))
    as [[e|stored] c]; cbn [fst].
  - split; [discriminate|]. split.
    + intros reason [= ->]. unfold raise. cbn. now split.
    + intros status reason [= ->] Hs. unfold raise.
      now rewrite bool_decide_eq_false_2.
  - split; [|split; discriminate].
    intros stored' config [= <-] Hparse. now rewrite Hparse.
Qed.

Lemma get_configuration_route_witness :
  fst (ReadRoutes.get_configuration
         (answering (ret (body_value config_created_before))) parse_stored
         "shop-config" "team-a" (world_of tt))
  = ret config_created_before
  /\ fst (ReadRoutes.get_configuration (answering (raise not_found))
            parse_stored "shop-config" "team-a" (world_of tt))
     = raise (HTTPException 404 "Configuration not found")
  /\ fst (ReadRoutes.get_configuration (answering (raise unavailable))
            parse_stored "shop-config" "team-a" (world_of tt))
     = raise (HTTPException 500
                "Failed to get configuration: (503) Reason: Service Unavailable").
Proof.
  split; [|split].
  - exact (proj1 (get_configuration_route unit
                    (answering (ret (body_value config_created_before)))
                    parse_stored "shop-config" "team-a" (world_of tt))
             _ _ eq_refl eq_refl).
  - exact (proj2 (proj1 (proj2 (get_configuration_route unit
                                  (answering (raise not_found)) parse_stored
                                  "shop-config" "team-a" (world_of tt)))
                    _ eq_refl)).
  - refine (proj2 (proj2 (get_configuration_route unit
                            (answering (raise unavailable)) parse_stored
                            "shop-config" "team-a" (world_of tt)))
              (Some 503) _ eq_refl _).
    discriminate.
Defined.

(** ** Create and update: results and refusals *)

Section StoreRuns.

Context {S : Type}.
Variable api : CustomObjectsApi S.
Variable utcnow_isoformat : nat -> string.
Variable parse_configuration : value -> result ApplicationConfiguration.
Variable git_repo : option string.

(** Stamping annotations that are no mapping raises a [TypeError]. *)
Lemma stamp_no_mapping_TypeError (key : string)
    (config : ApplicationConfiguration) (w : World S) :
  annotations_dict (metadata config) = None ->
  exists msg,
    stamp utcnow_isoformat key
      (set_metadata config
         (setdefault (metadata config) "annotations" (VDict []))) w
    = (raise (TypeError msg), tick w).
Proof.
  unfold annotations_dict.
  destruct (dict_lookup (metadata config) "annotations") as [v|] eqn:Hv;
    [|discriminate].
  assert (Hm : setdefault (metadata config) "annotations" (VDict [])
               = metadata config) by (unfold setdefault; now rewrite Hv).
  rewrite Hm. unfold stamp, mbind, utcnow, lift, getitem.
  cbn [metadata set_metadata]. rewrite Hv.
  destruct v as [| | | | | |a]; try discriminate; intros _;
    eexists; reflexivity.
Qed.

(** The whole run of an update whose annotations can be stamped. *)
Lemma update_configuration_run (config : ApplicationConfiguration)
    (a : dict) (w : World S) :
  annotations_dict (metadata config) = Some a ->
  update_configuration api utcnow_isoformat parse_configuration git_repo
    config w
  = match dict_lookup (metadata config) "namespace",
          dict_lookup (metadata config) "name" with
    | Some namespace, Some name =>
        (as_service_error "Failed to update configuration: "
           (let* stored :=
              fst (patch_namespaced_custom_object api namespace name
                     (with_annotations config
                        (setitem a "lastModified"
                           (VStr (utcnow_isoformat (clock_reads w)))))
                     (cluster w)) in
            parse_configuration stored),
         {| cluster :=
              snd (patch_namespaced_custom_object api namespace name
                     (with_annotations config
                        (setitem a "lastModified"
                           (VStr (utcnow_isoformat (clock_reads w)))))
                     (cluster w));
            clock_reads := Datatypes.S (clock_reads w);
            calls := calls w ++ update_request utcnow_isoformat config w |})
    | None, _ => (raise (KeyError "namespace"), tick w)
    | Some _, None => (raise (KeyError "name"), tick w)
    end.
Proof.
  intros Ha. unfold update_configuration, update_request,
    except_ApiException, mbind.
  pose proof (stamp_after_setdefault utcnow_isoformat "lastModified" config w)
    as Hs.
  rewrite Ha in Hs |- *. rewrite Hs. unfold lift, getitem. unfold ret at 1.
  cbv beta iota. rewrite !with_annotations_frame by discriminate.
  destruct (dict_lookup (metadata config) "namespace") as [ns|];
    [|reflexivity].
  destruct (dict_lookup (metadata config) "name") as [n|]; [|reflexivity].
  unfold send, _sync_to_git, mret, mraise, ret.
  cbn [cluster tick calls clock_reads].
  destruct (patch_namespaced_custom_object api ns n _ (cluster w))
    as [[e|stored] c]; cbn [fst snd bind as_service_error].
  - destruct e; reflexivity.
  - destruct git_repo; destruct (parse_configuration stored) as [e|x];
      try destruct e; reflexivity.
Qed.

(** The whole run of a create whose annotations can be stamped. *)
Lemma create_configuration_run (config : ApplicationConfiguration)
    (a : dict) (w : World S) :
  annotations_dict (metadata config) = Some a ->
  create_configuration api utcnow_isoformat parse_configuration git_repo
    config w
  = match dict_lookup (metadata config) "namespace" with
    | Some namespace =>
        (as_service_error "Failed to create configuration: "
           (let* stored :=
              fst (create_namespaced_custom_object api namespace
                     (with_annotations config
                        (setitem
                           (setitem a "created"
                              (VStr (utcnow_isoformat (clock_reads w))))
                           "lastModified"
                           (VStr (utcnow_isoformat
                                    (Datatypes.S (clock_reads w))))))
                     (cluster w)) in
            parse_configuration stored),
         {| cluster :=
              snd (create_namespaced_custom_object api namespace
                     (with_annotations config
                        (setitem
                           (setitem a "created"
                              (VStr (utcnow_isoformat (clock_reads w))))
                           "lastModified"
                           (VStr (utcnow_isoformat
                                    (Datatypes.S (clock_reads w))))))
                     (cluster w));
            clock_reads := Datatypes.S (Datatypes.S (clock_reads w));
            calls := calls w ++ create_request utcnow_isoformat config w |})
    | None => (raise (KeyError "namespace"), tick (tick w))
    end.
Proof.
  intros Ha. unfold create_configuration, create_request,
    except_ApiException, mbind.
  pose proof (stamp_after_setdefault utcnow_isoformat "created" config w)
    as Hs.
  rewrite Ha in Hs |- *. rewrite Hs. unfold ret at 1. cbv beta iota.
  rewrite (stamp_annotations utcnow_isoformat "lastModified" _ _ (tick w)
             (with_annotations_lookup config _)).
  rewrite with_annotations_again.
  unfold lift, getitem. unfold ret at 1. cbv beta iota.
  rewrite !with_annotations_frame by discriminate.
  destruct (dict_lookup (metadata config) "namespace") as [ns|];
    [|reflexivity].
  unfold send, _sync_to_git, mret, mraise, ret.
  cbn [cluster tick calls clock_reads].
  destruct (create_namespaced_custom_object api ns _ (cluster w))
    as [[e|stored] c]; cbn [fst snd bind as_service_error].
  - destruct e; reflexivity.
  - destruct git_repo; destruct (parse_configuration stored) as [e|x];
      try destruct e; reflexivity.
Qed.

End StoreRuns.

(** What create and update return once the request is made: the parsed
    answer of the API when it stores the configuration, and a service
    error (status 500 with the fault's text) for a fault of the API with
    any status, a conflict on create or a not-found on update included. *)
Theorem store_faults_are_service_errors (S : Type) (api : CustomObjectsApi S)
    (utcnow_isoformat : nat -> string)
    (parse_configuration : value -> result ApplicationConfiguration)
    (git_repo : option string)
    (config : ApplicationConfiguration) (a : dict) (namespace name : value)
    (w : World S) :
  annotations_dict (metadata config) = Some a ->
  dict_lookup (metadata config) "namespace" = Some namespace ->
  ((forall status reason,
      fst (create_namespaced_custom_object api namespace
             (create_body utcnow_isoformat config a w) (cluster w))
      = raise (ApiException status reason) ->
      fst (create_configuration api utcnow_isoformat parse_configuration
             git_repo config w)
      = raise (HTTPException 500
                 ("Failed to create configuration: " +:+ reason)))
   /\ (forall stored parsed,
         fst (create_namespaced_custom_object api namespace
                (create_body utcnow_isoformat config a w) (cluster w))
         = ret stored ->
         parse_configuration stored = ret parsed ->
         fst (create_configuration api utcnow_isoformat parse_configuration
                git_repo config w) = ret parsed))
  /\ (dict_lookup (metadata config) "name" = Some name ->
      (forall status reason,
         fst (patch_namespaced_custom_object api namespace name
                (update_body utcnow_isoformat config a w) (cluster w))
         = raise (ApiException status reason) ->
         fst (update_configuration api utcnow_isoformat parse_configuration
                git_repo config w)
         = raise (HTTPException 500
                    ("Failed to update configuration: " +:+ reason)))
      /\ (forall stored parsed,
            fst (patch_namespaced_custom_object api namespace name
                   (update_body utcnow_isoformat config a w) (cluster w))
            = ret stored ->
            parse_configuration stored = ret parsed ->
            fst (update_configuration api utcnow_isoformat parse_configuration
                   git_repo config w) = ret parsed)).
Proof.
  intros Ha Hns. split.
  - rewrite (create_configuration_run api utcnow_isoformat parse_configuration
               git_repo config a w Ha), Hns. cbn [fst].
    fold (create_body utcnow_isoformat config a w). split.
    + intros status reason ->. reflexivity.
    + intros stored parsed -> Hp. unfold ret in *. cbn [bind].
      now rewrite Hp.
  - intros Hname.
    rewrite (update_configuration_run api utcnow_isoformat parse_configuration
               git_repo config a w Ha), Hns, Hname. cbn [fst].
    fold (update_body utcnow_isoformat config a w). split.
    + intros status reason ->. reflexivity.
    + intros stored parsed -> Hp. unfold ret in *. cbn [bind].
      now rewrite Hp.
Qed.

(** Creating what the cluster already holds, and updating what it does
    not: a 500 either way. *)
Lemma store_faults_are_service_errors_witness :
  fst (create_configuration mem_api example_clock parse_stored None
         config_created_before (world_of one_config_cluster))
  = raise (HTTPException 500
             "Failed to create configuration: (409) Reason: Conflict")
  /\ fst (update_configuration mem_api example_clock parse_stored None
            config_created_before (world_of (∅ : mem_cluster)))
     = raise (HTTPException 500
                "Failed to update configuration: (404) Reason: Not Found").
Proof.
  split.
  - refine (proj1 (proj1 (store_faults_are_service_errors mem_cluster mem_api
                            example_clock parse_stored None
                            config_created_before _ (VStr "team-a")
                            (VStr "shop-config") (world_of one_config_cluster)
                            eq_refl eq_refl))
              (Some 409) _ eq_refl).
  - refine (proj1 (proj2 (store_faults_are_service_errors mem_cluster mem_api
                            example_clock parse_stored None
                            config_created_before _ (VStr "team-a")
                            (VStr "shop-config") (world_of ∅)
                            eq_refl eq_refl) eq_refl)
              (Some 404) _ eq_refl).
Defined.

(** Create and update give up before any request is made when the
    annotations are present but no mapping (a [TypeError]) or when the
    metadata lack the namespace or, for update, the name (a [KeyError]):
    the cluster is left as it was and nothing has been sent, though the
    clock has been read. *)
Theorem store_refuses_before_sending (S : Type) (api : CustomObjectsApi S)
    (utcnow_isoformat : nat -> string)
    (parse_configuration : value -> result ApplicationConfiguration)
    (git_repo : option string)
    (config : ApplicationConfiguration) (w : World S) :
  (annotations_dict (metadata config) = None ->
   (exists msg,
      create_configuration api utcnow_isoformat parse_configuration git_repo
        config w = (raise (TypeError msg), tick w))
   /\ (exists msg,
         update_configuration api utcnow_isoformat parse_configuration
           git_repo config w = (raise (TypeError msg), tick w)))
  /\ (forall a,
        annotations_dict (metadata config) = Some a ->
        dict_lookup (metadata config) "namespace" = None ->
        create_configuration api utcnow_isoformat parse_configuration git_repo
          config w = (raise (KeyError "namespace"), tick (tick w))
        /\ update_configuration api utcnow_isoformat parse_configuration
             git_repo config w = (raise (KeyError "namespace"), tick w))
  /\ (forall a namespace,
        annotations_dict (metadata config) = Some a ->
        dict_lookup (metadata config) "namespace" = Some namespace ->
        dict_lookup (metadata config) "name" = None ->
        update_configuration api utcnow_isoformat parse_configuration
          git_repo config w = (raise (KeyError "name"), tick w)).
Proof.
  split; [|split].
  - intros Ha.
    destruct (stamp_no_mapping_TypeError utcnow_isoformat "created" config w Ha)
      as [msg Hc].
    destruct (stamp_no_mapping_TypeError utcnow_isoformat "lastModified"
                config w Ha) as [msg' Hu].
    unfold create_configuration, update_configuration,
      except_ApiException, mbind. rewrite Hc, Hu.
    split; [now exists msg | now exists msg'].
  - intros a Ha Hns. split.
    + now rewrite (create_configuration_run api utcnow_isoformat
                     parse_configuration git_repo config a w Ha), Hns.
    + now rewrite (update_configuration_run api utcnow_isoformat
                     parse_configuration git_repo config a w Ha), Hns.
  - intros a ns Ha Hns Hname.
    now rewrite (update_configuration_run api utcnow_isoformat
                   parse_configuration git_repo config a w Ha), Hns, Hname.
Qed.

Lemma store_refuses_before_sending_witness :
  (exists msg,
     update_configuration mem_api example_clock parse_stored None
       config_null_annotations (world_of one_config_cluster)
     = (raise (TypeError msg), tick (world_of one_config_cluster)))
  /\ create_configuration mem_api example_clock parse_stored None
       config_no_namespace (world_of one_config_cluster)
     = (raise (KeyError "namespace"),
        tick (tick (world_of one_config_cluster))).
Proof.
  destruct (store_refuses_before_sending mem_cluster mem_api example_clock
              parse_stored None config_null_annotations
              (world_of one_config_cluster)) as (Hnull & _ & _).
  destruct (Hnull eq_refl) as (_ & msg & Hu).
  destruct (store_refuses_before_sending mem_cluster mem_api example_clock
              parse_stored None config_no_namespace
              (world_of one_config_cluster)) as (_ & Hns & _).
  split; [now exists msg|].
  exact (proj1 (Hns [] eq_refl eq_refl)).
Defined.

(** ** The job client: shape of the results and bounds of the polling *)

Lemma failure_shaped (error : string) : result_shaped (failure error) = true.
Proof. reflexivity. Qed.

Lemma wait_loop_result_shaped (net : Network) (job_id : value)
    (start_time max_wait : Z) (fuel : nat) :
  forall w d w',
  wait_loop net fuel job_id start_time max_wait w = Some (ret d, w') ->
  result_shaped d = true.
Proof.
  induction fuel as [|fuel IH]; intros w d w'; [discriminate|].
  rewrite wait_loop_turn.
  destruct (now w - start_time <? seconds max_wait);
    [|intros [= <- _]; reflexivity].
  destruct (get_outcome net (gets w)) as [code json|msg];
    [|intros [= <- _]; reflexivity].
  destruct (code =? 200).
  - destruct json as [e|job_result].
    + destruct e; intros [= <- _] || (intros H; discriminate H); reflexivity.
    + destruct job_result; cbn [py_get bind ret raise];
        intros H; try discriminate H.
      injection H as <- _. reflexivity.
  - destruct (code =? 404); [apply IH|intros [= <- _]; reflexivity].
Qed.

(** Whatever the engine answers and however long it takes, a result that
    [_wait_for_completion] or [run_flow] returns is a mapping of one of two
    shapes: [success] true with [job_id], [result] and [logs], or
    [success] false with an [error] text.  The tools' [result["success"]],
    [result["result"]] and [result["error"]] therefore never miss their
    key. *)
Theorem run_flow_result_shaped (net : Network)
    (http_error_text : Z -> string) (fuel : nat) (w : NetWorld) :
  (forall job_id max_wait d w',
     _wait_for_completion net fuel job_id max_wait w = Some (ret d, w') ->
     result_shaped d = true)
  /\ (forall post post_latency d w',
        run_flow net http_error_text fuel post post_latency w
        = Some (ret d, w') ->
        result_shaped d = true).
Proof.
  split.
  - intros job_id max_wait d w'. unfold _wait_for_completion.
    apply wait_loop_result_shaped.
  - intros post post_latency d w'. unfold run_flow.
    destruct post as [code json|msg]; [|intros [= <- _]; reflexivity].
    destruct ((400 <=? code) && (code <? 600));
      [intros [= <- _]; reflexivity|].
    destruct json as [e|job_data].
    + destruct e; intros [= <- _] || (intros H; discriminate H); reflexivity.
    + destruct (py_get job_data "uuid" VNone) as [e|job_id];
        [discriminate|].
      destruct (negb (truthy job_id)); [intros [= <- _]; reflexivity|].
      unfold _wait_for_completion. apply wait_loop_result_shaped.
Qed.

Lemma run_flow_result_shaped_witness :
  result_shaped (success_result (VStr "job-1") job_payload) = true
  /\ result_shaped (failure "No job ID returned") = true.
Proof.
  destruct (run_flow_result_shaped ready_third_net (fun _ => "")
              (enough_fuel 300) fresh_world) as [Hwait Hrun].
  split.
  - apply (Hwait (VStr "job-1") 300 _
             {| now := 10062; gets := 3; sleeps := 2 |}).
    vm_compute. reflexivity.
  - apply (Hrun (Response 200 (ret (VDict []))) 20 _
             {| now := 20; gets := 0; sleeps := 0 |}).
    vm_compute. reflexivity.
Defined.

Section PollingBounds.

Variable net : Network.
Hypothesis latency_nonneg : forall i, 0 <= get_latency net i.
Hypothesis sleep_extra_nonneg : forall i, 0 <= sleep_extra net i.

Variable job_id : value.
Variable start_time max_wait : Z.

(** Requests and sleeps of a run of the loop that starts at least [n]
    sleeps after [start_time]. *)
Lemma wait_loop_bounds (fuel : nat) :
  forall w n r w',
  start_time + seconds 5 * Z.of_nat n <= now w ->
  wait_loop net fuel job_id start_time max_wait w = Some (r, w') ->
  exists k s,
    gets w' = (gets w + k)%nat
    /\ sleeps w' = (sleeps w + s)%nat
    /\ (s <= k <= s + 1)%nat
    /\ (k = 0%nat \/ seconds 5 * (Z.of_nat (n + k) - 1) < seconds max_wait).
Proof.
  induction fuel as [|fuel IH]; intros w n r w' Hn; [discriminate|].
  rewrite wait_loop_turn.
  assert (Hone : forall x,
    now w - start_time < seconds max_wait ->
    Some (x, snd (session_get net w)) = Some (r, w') ->
    exists k s,
      gets w' = (gets w + k)%nat /\ sleeps w' = (sleeps w + s)%nat
      /\ (s <= k <= s + 1)%nat
      /\ (k = 0%nat \/ seconds 5 * (Z.of_nat (n + k) - 1) < seconds max_wait)).
  { intros x Ht [= _ <-]. exists 1%nat, 0%nat.
    unfold session_get. cbn [snd gets sleeps].
    unfold seconds in *. repeat split; lia. }
  destruct (now w - start_time <? seconds max_wait) eqn:Ht.
  - apply Z.ltb_lt in Ht.
    destruct (get_outcome net (gets w)) as [code json|msg];
      [|now apply Hone].
    destruct (code =? 200);
      [destruct json as [[]|]; now apply Hone|].
    destruct (code =? 404); [|now apply Hone].
    intros Hrun.
    destruct (IH (time_sleep net 5 (snd (session_get net w)))
                (Datatypes.S n) r w') as (k & s & Hg & Hs & Hks & Hk).
    + unfold time_sleep, session_get. cbn [snd now gets sleeps].
      pose proof (latency_nonneg (gets w)).
      pose proof (sleep_extra_nonneg (sleeps w)). unfold seconds in *. lia.
    + exact Hrun.
    + exists (Datatypes.S k), (Datatypes.S s).
      unfold time_sleep, session_get in Hg, Hs. cbn [snd gets sleeps] in Hg, Hs.
      unfold seconds in *. repeat split; lia.
  - intros [= _ <-]. exists 0%nat, 0%nat. repeat split; lia.
Qed.

End PollingBounds.

(** With fuel enough for [max_wait] and requests that take time but not
    negative time, [_wait_for_completion] always comes back.  It has then
    made [k] requests and slept [k] or [k - 1] times (every request but
    possibly the last is followed by a sleep), and either [k] is 0 or the
    sleeps before the last request fit into the timeout:
    [5 * (k - 1) < max_wait], that is at most 60 requests with the default
    of 300 seconds. *)
Theorem wait_for_completion_bounded (net : Network) (job_id : value)
    (max_wait : Z) (fuel : nat) (w : NetWorld) :
  (forall i, 0 <= get_latency net i) ->
  (forall i, 0 <= sleep_extra net i) ->
  (enough_fuel max_wait <= fuel)%nat ->
  exists r w' k s,
    _wait_for_completion net fuel job_id max_wait w = Some (r, w')
    /\ gets w' = (gets w + k)%nat
    /\ sleeps w' = (sleeps w + s)%nat
    /\ (s <= k <= s + 1)%nat
    /\ (k = 0%nat \/ 5 * (Z.of_nat k - 1) < max_wait).
Proof.
  intros Hl He Hfuel. unfold _wait_for_completion.
  destruct (enough_fuel_covers max_wait fuel Hfuel) as (fuel' & -> & Hf).
  destruct (wait_loop_terminates net Hl He job_id (now w) max_wait fuel' w)
    as (r & w' & Hrun); [lia|].
  destruct (wait_loop_bounds net Hl He job_id (now w) max_wait
              (Datatypes.S fuel') w 0%nat r w') as (k & s & Hg & Hs & Hks & Hk);
    [unfold seconds; lia | exact Hrun |].
  exists r, w', k, s. repeat (split; [assumption || lia|]).
  destruct Hk as [->|Hk]; [now left|right].
  unfold seconds in Hk. cbn [Nat.add] in Hk. lia.
Qed.

Lemma wait_for_completion_bounded_witness :
  exists r w' k s,
    _wait_for_completion never_ready_net (enough_fuel 300) (VStr "job-1") 300
      fresh_world = Some (r, w')
    /\ gets w' = k /\ sleeps w' = s
    /\ (s <= k <= s + 1)%nat
    /\ (Z.of_nat k <= 60).
Proof.
  destruct (wait_for_completion_bounded never_ready_net (VStr "job-1") 300
              (enough_fuel 300) fresh_world
              (fun _ => ltac:(simpl; lia)) (fun _ => ltac:(simpl; lia))
              (Nat.le_refl _))
    as (r & w' & k & s & Hrun & Hg & Hs & Hks & Hk).
  exists r, w', k, s. cbn [fresh_world gets sleeps Nat.add] in Hg, Hs.
  repeat (split; [assumption|]). lia.
Defined.

(** ** The health report's component lines *)

Section HealthReportProofs.

Variable py_repr : value -> string.
Variable str_upper : string -> string.

Lemma component_line_printable (name : string) (info : value) :
  status_printable info = true ->
  exists line, component_line py_repr str_upper name info = ret line.
Proof.
  unfold status_printable, component_line.
  destruct info as [| | | | | |d]; try (intros _; eexists; reflexivity).
  destruct (get d "status" (VStr "unknown")); try discriminate.
  intros _. eexists. reflexivity.
Qed.

Lemma component_line_unprintable (name : string) (info : value) :
  status_printable info = false ->
  exists ty, component_line py_repr str_upper name info
             = raise (AttributeError ty "upper").
Proof.
  unfold status_printable, component_line.
  destruct info as [| | | | | |d]; try discriminate.
  destruct (get d "status" (VStr "unknown")); try discriminate;
    intros _; eexists; reflexivity.
Qed.

Lemma component_lines_printable (items : list (string * value)) :
  forall lines,
  forallb (fun kv => status_printable (snd kv)) items = true ->
  exists more,
    Forall2 (fun kv line =>
               component_line py_repr str_upper (fst kv) (snd kv) = ret line)
      items more
    /\ component_lines py_repr str_upper items lines = ret (lines ++ more).
Proof.
  induction items as [|[name info] items IH]; intros lines H;
    cbn [component_lines forallb snd] in *.
  - exists []. split; [constructor | now rewrite app_nil_r].
  - apply andb_prop in H as [Hinfo Hrest].
    destruct (component_line_printable name info Hinfo) as [line Hline].
    rewrite Hline. cbn [bind ret].
    destruct (IH (lines ++ [line]) Hrest) as (more & Hall & Hrun).
    exists (line :: more). split; [now constructor|].
    rewrite Hrun. now rewrite <- app_assoc.
Qed.

Lemma component_lines_unprintable (items : list (string * value)) :
  forall lines,
  forallb (fun kv => status_printable (snd kv)) items = false ->
  exists ty, component_lines py_repr str_upper items lines
             = raise (AttributeError ty "upper").
Proof.
  induction items as [|[name info] items IH]; intros lines H;
    cbn [component_lines forallb snd] in *; [discriminate|].
  destruct (status_printable info) eqn:Hinfo; cbn [andb] in H.
  - destruct (component_line_printable name info Hinfo) as [line ->].
    cbn [bind ret]. now apply IH.
  - destruct (component_line_unprintable name info Hinfo) as [ty ->].
    now exists ty.
Qed.

End HealthReportProofs.

(** [_format_component_status]: nothing to report (no components, or a
    falsy value in their place) gives the fixed text; a mapping of
    components gives one line per component, in order, provided every
    component that is a mapping has a string for its status or none at
    all; a mapping component whose status is not a string ([null], a
    number) makes it raise an [AttributeError]; and a truthy value that is
    no mapping does so as well. *)
Theorem format_component_status_result (py_repr : value -> string)
    (str_upper : string -> string) (components : value) :
  (truthy components = false ->
   _format_component_status py_repr str_upper components
   = ret "No component data available")
  /\ (forall d,
        components = VDict d -> d <> [] ->
        forallb (fun kv => status_printable (snd kv)) d = true ->
        exists lines,
          Forall2 (fun kv line =>
                     component_line py_repr str_upper (fst kv) (snd kv)
                     = ret line) d lines
          /\ _format_component_status py_repr str_upper components
             = ret (String.concat newline lines))
  /\ (forall d,
        components = VDict d ->
        forallb (fun kv => status_printable (snd kv)) d = false ->
        exists ty,
          _format_component_status py_repr str_upper components
          = raise (AttributeError ty "upper"))
  /\ (truthy components = true ->
      (forall d, components <> VDict d) ->
      _format_component_status py_repr str_upper components
      = raise (AttributeError (type_name components) "items")).
Proof.
  unfold _format_component_status. split; [|split; [|split]].
  - now intros ->.
  - intros d -> Hne Hall. destruct d as [|kv d]; [contradiction|].
    cbn [truthy negb py_items bind ret].
    destruct (component_lines_printable py_repr str_upper (kv :: d) [] Hall)
      as (lines & HF & Hrun).
    exists lines. split; [exact HF|]. now rewrite Hrun.
  - intros d -> Hbad. destruct d as [|kv d]; [discriminate|].
    cbn [truthy negb py_items bind ret].
    destruct (component_lines_unprintable py_repr str_upper (kv :: d) [] Hbad)
      as [ty Hrun].
    exists ty. now rewrite Hrun.
  - intros -> Hnd. destruct components; try reflexivity.
    now destruct (Hnd kvs).
Qed.

Lemma format_component_status_result_witness :
  _format_component_status (fun _ => "") ascii_upper (VDict [])
  = ret "No component data available"
  /\ _format_component_status (fun _ => "") ascii_upper sample_components
     = ret ("  istio: HEALTHY (Score: 95/100)" +:+ newline
            +:+ "  argocd: UNKNOWN (Score: 40/100)" +:+ newline
            +:+ "  backstage: starting")
  /\ (exists ty,
        _format_component_status (fun _ => "") ascii_upper
          components_null_status
        = raise (AttributeError ty "upper")).
Proof.
  pose proof (format_component_status_result (fun _ => "") ascii_upper) as H.
  split; [|split].
  - exact (proj1 (H (VDict [])) eq_refl).
  - destruct (proj1 (proj2 (H sample_components)) _ eq_refl) as (lines & HF & Hrun);
      [discriminate | reflexivity |].
    rewrite Hrun.
    inversion HF as [|? l1 ? ls1 H1 HF1]; subst.
    inversion HF1 as [|? l2 ? ls2 H2 HF2]; subst.
    inversion HF2 as [|? l3 ? ls3 H3 HF3]; subst.
    inversion HF3; subst.
    injection H1 as <-. injection H2 as <-. injection H3 as <-.
    reflexivity.
  - exact (proj1 (proj2 (proj2 (H components_null_status))) _ eq_refl eq_refl).
Defined.
